(** * job-board: template renderer, HTTP middleware and user repository

    A shallow embedding of the three Go packages of the repository
    ([template], [middleware], [user]) and the properties of their
    specification.  Go values are modelled as follows:
    - [int] and [time.Time] as [Z] (a time is a count of seconds; the zero
      [time.Time] is [0]);
    - [string] as [string], [[]byte] as [list Byte.byte];
    - a pointer that may be [nil] as an [option];
    - an [error] as [option error], [None] being [nil];
    - a call that may panic as a value of [go A];
    - [http.Header] and the session's [Values] as [gmap];
    - the database as a record of tables that is passed along, with the
      statements it has executed and the driver faults still to come. *)

From Stdlib Require Import ZArith Bool Ascii Lia.
From stdpp Require Import base option list strings gmap.

(** ** Go run-time values shared by the packages *)

(** The values of type [error] that the packages create or compare with.
    [lib_error] is an error made by a library or by the database driver. *)
Inductive error : Type :=
  | sql_ErrNoRows
  | ErrNoAuthSession
  | ErrNoAuthCookie
  | ErrTokenVerificationFailed
  | errors_New (text : string)
  | lib_error (text : string).

Definition Error (e : error) : string :=
  match e with
  | sql_ErrNoRows => "sql: no rows in result set"
  | ErrNoAuthSession => "no authentication session"
  | ErrNoAuthCookie => "no authentication cookie"
  | ErrTokenVerificationFailed => "token verification failed"
  | errors_New text => text
  | lib_error text => text
  end.

Global Instance error_eq_dec : EqDecision error.
Proof. solve_decision. Defined.

(** The outcome of running a piece of Go code: it returns, or it panics. *)
Inductive go (A : Type) : Type :=
  | Returns (a : A)
  | Panics (reason : string).
Arguments Returns {A} a.
Arguments Panics {A} reason.

Definition len {A : Type} (a : list A) : Z := Z.of_nat (length a).

(** [a[i]]: Go checks the bounds and panics outside them. *)
Definition index {A : Type} (a : list A) (i : Z) : go A :=
  if ((0 <=? i) && (i <? len a))%Z then
    match a !! Z.to_nat i with
    | Some x => Returns x
    | None => Panics "index out of range"
    end
  else Panics "index out of range".

(** ** net/http: the response writer and the request *)

Module http.

(** A [http.ResponseWriter] is an interface; the middleware only calls
    it.  It is modelled by the calls made on it, oldest first, the way a
    recording writer of a test would keep them.  [Redirect] is
    [http.Redirect(w, r, url, code)], a function of net/http that writes
    the Location header and the status [code]. *)
Inductive call : Type :=
  | Header_Set (key value : string)
  | WriteHeader (statusCode : Z)
  | Write (data : string)
  | Redirect (url : string) (code : Z).

Definition ResponseWriter : Type := list call.

Definition StatusOK : Z := 200.
Definition StatusMovedPermanently : Z := 301.
Definition StatusSeeOther : Z := 303.
Definition StatusUnauthorized : Z := 401.
Definition StatusTeapot : Z := 418.

(** The status line of the response: the first call that writes the
    header decides it ([Write] before any [WriteHeader] sends 200). *)
Fixpoint Status (w : ResponseWriter) : option Z :=
  match w with
  | [] => None
  | Header_Set _ _ :: w' => Status w'
  | WriteHeader c :: _ => Some c
  | Write _ :: _ => Some StatusOK
  | Redirect _ c :: _ => Some c
  end.


(** textproto.CanonicalMIMEHeaderKey: a key made of token bytes only has
    the first letter and every letter after a hyphen in upper case and
    the others in lower case; any other key is left as it is. *)
Definition validHeaderFieldByte (c : ascii) : bool :=
  let n := nat_of_ascii c in
  ((48 <=? n) && (n <=? 57) || (65 <=? n) && (n <=? 90)
   || (97 <=? n) && (n <=? 122)
   || existsb (Nat.eqb n) [33; 35; 36; 37; 38; 39; 42; 43; 45; 46; 94; 95; 96; 124; 126])%nat.

Definition toUpper (c : ascii) : ascii :=
  let n := nat_of_ascii c in
  if ((97 <=? n) && (n <=? 122))%nat then ascii_of_nat (n - 32) else c.

Definition toLower (c : ascii) : ascii :=
  let n := nat_of_ascii c in
  if ((65 <=? n) && (n <=? 90))%nat then ascii_of_nat (n + 32) else c.

Fixpoint allValid (s : string) : bool :=
  match s with
  | EmptyString => true
  | String c s' => validHeaderFieldByte c && allValid s'
  end.

Fixpoint canonical (upper : bool) (s : string) : string :=
  match s with
  | EmptyString => EmptyString
  | String c s' =>
      let c' := if upper then toUpper c else toLower c in
      String c' (canonical (Ascii.eqb c' "-"%char) s')
  end.

Definition CanonicalMIMEHeaderKey (s : string) : string :=
  if allValid s then canonical true s else s.

(** [http.Header] is [map[string][]string]. *)
Definition Header_Get (h : gmap string (list string)) (key : string) : string :=
  match h !! CanonicalMIMEHeaderKey key with
  | Some (v :: _) => v
  | _ => ""
  end.

(** The headers of the response as they stand after the calls of [w]
    (every call of [Header().Set] is applied, in order). *)
Definition Header_of (w : ResponseWriter) : gmap string (list string) :=
  fold_left
    (fun h c =>
       match c with
       | Header_Set key value => <[CanonicalMIMEHeaderKey key := [value]]> h
       | _ => h
       end)
    w ∅.

(** The value a request carries in its context under the key
    ["authToken"]: a [*auth.Token]. *)
Record auth_Token : Type := { UID : string }.

Record Request : Type := {
  Method : string;
  Host : string;
  URL_Path : string;
  Header : gmap string (list string);
  Context : list (string * option auth_Token)
}.

(** [r.WithContext(context.WithValue(r.Context(), key, val))] *)
Definition WithValue (r : Request) (key : string) (val : option auth_Token) : Request :=
  {| Method := Method r; Host := Host r; URL_Path := URL_Path r;
     Header := Header r; Context := (key, val) :: Context r |}.

(** A handler is run on a request and a response writer and leaves the
    writer with the calls it has added. *)
Definition Handler : Type := ResponseWriter -> Request -> ResponseWriter.

(** [r.Context().Value(key)]: the value of the latest [WithValue] for
    [key]; [None] when the context has none. *)
Definition Value (r : Request) (key : string) : option (option auth_Token) :=
  snd <$> List.find (fun kv => String.eqb (fst kv) key) (Context r).

End http.

(** strings.Contains *)
Fixpoint strings_Contains (s substr : string) : bool :=
  String.prefix substr s
  || match s with
     | EmptyString => false
     | String _ s' => strings_Contains s' substr
     end.

(** strings.Split for a separator that is not empty: the pieces of [s]
    between the occurrences of [sep], found from the left and not
    overlapping.  [skip] counts the bytes of an occurrence still to pass,
    [cur] is the piece read so far. *)
Fixpoint split_from (sep : string) (skip : nat) (cur s : string) : list string :=
  match s with
  | EmptyString => [cur]
  | String c s' =>
      match skip with
      | S k => split_from sep k cur s'
      | O =>
          if String.prefix sep s then
            cur :: split_from sep (String.length sep - 1) EmptyString s'
          else split_from sep 0 (cur +:+ String c EmptyString) s'
      end
  end.

Definition strings_Split (s sep : string) : list string := split_from sep 0 EmptyString s.

(** strings.ReplaceAll for an [old] that is not empty. *)
Fixpoint replace_from (old new : string) (skip : nat) (s : string) : string :=
  match s with
  | EmptyString => EmptyString
  | String c s' =>
      match skip with
      | S k => replace_from old new k s'
      | O =>
          if String.prefix old s then
            new +:+ replace_from old new (String.length old - 1) s'
          else String c (replace_from old new 0 s')
      end
  end.

Definition strings_ReplaceAll (s old new : string) : string := replace_from old new 0 s.

(** ** Package template *)

Module template.

(** The "last" entry of the function map. *)
Definition last (a : list Z) : go Z :=
  if (len a =? 0)%Z then Returns (-1)%Z else index a (len a - 1).

(** A parsed set of templates: for each template name, what executing
    it on the data (taken as a string) writes, piece by piece, and the
    error that ends the execution when it fails; the pieces before a
    failure are written all the same. *)
Definition TemplateSet : Type := gmap string (string -> list string * option error).

(** The template directory as [ParseGlob] finds it: the set it parses
    to, or the parse error. *)
Definition Disk : Type := string -> TemplateSet + error.

Record Template : Type := {
  templates : TemplateSet;
  watcher : bool
}.

Definition createTemplateFromGlob (disk : Disk) (glob : string) : go TemplateSet :=
  match disk glob with
  | inl ts => Returns ts
  | inr err => Panics (Error err)
  end.

(** fsnotify events. *)
Record Event : Type := { Name : string; Op : Z }.
Definition fsnotify_Write : Z := 2.
Definition Has (e : Event) (op : Z) : bool := negb (Z.land (Op e) op =? 0)%Z.

(** What one turn of the [select] receives: a value of [watcher.Events]
    or of [watcher.Errors]; [None] is a closed channel ([ok] false). *)
Inductive received : Type :=
  | from_Events (event : option Event)
  | from_Errors (err : option error).

(** The program as the watching goroutine sees it: the shared template
    value and the lines written with package log. *)
Record Program : Type := {
  t : Template;
  log : list string
}.

(** How one turn of the loop ends: the loop goes on, the goroutine
    returns, or it panics.  Nothing recovers a panic of the goroutine, so
    it ends the program. *)
Inductive turn : Type :=
  | goes_on
  | returned
  | panicked (reason : string).

(** One turn of the [for { select { ... } }] of the goroutine that
    [NewTemplate] starts: the program as the turn leaves it, and how the
    turn ends. *)
Definition watch_turn (disk : Disk) (p : Program) (m : received) : Program * turn :=
  match m with
  | from_Events None => (p, returned)
  | from_Events (Some event) =>
      if Has event fsnotify_Write then
        let p1 :=
          {| t := t p;
             log := log p ++ ["modified file " +:+ Name event +:+ ", reloading templates"] |} in
        match createTemplateFromGlob disk "static/views/*.html" with
        | Returns ts =>
            ({| t := {| templates := ts; watcher := watcher (t p1) |}; log := log p1 |},
             goes_on)
        | Panics reason => (p1, panicked reason)
        end
      else (p, goes_on)
  | from_Errors None => (p, returned)
  | from_Errors (Some err) =>
      ({| t := t p; log := log p ++ ["error from file watcher: " +:+ Error err] |},
       goes_on)
  end.

(** The goroutine over what it receives, each with the directory as it
    is at that moment; it stops at the first turn that does not go on. *)
Fixpoint watch (ms : list (Disk * received)) (p : Program) : Program * turn :=
  match ms with
  | [] => (p, goes_on)
  | (disk, m) :: ms' =>
      match watch_turn disk p m with
      | (p', goes_on) => watch ms' p'
      | stopped => stopped
      end
  end.

(** [NewTemplate]: [newWatcher] and [add] are the errors of
    [fsnotify.NewWatcher] and of [watcher.Add].  The result is the
    template value and whether the watching goroutine runs. *)
Definition NewTemplate (disk : Disk) (newWatcher add : option error) (env : string)
  : go (Template * bool) :=
  match createTemplateFromGlob disk "static/views/*.html" with
  | Panics reason => Panics reason
  | Returns ts =>
      let t0 := {| templates := ts; watcher := false |} in
      if negb (String.eqb env "dev") then Returns (t0, false)
      else
        match newWatcher with
        | Some err => Panics (Error err)
        | None =>
            match add with
            | Some err => Panics (Error err)
            | None => Returns ({| templates := ts; watcher := true |}, true)
            end
        end
  end.


(** *** The other entries of the function map

    [int] is the 64-bit integer of the platforms Go is built for here:
    arithmetic wraps around. *)

Definition wrap (z : Z) : Z := ((z + 2 ^ 63) mod 2 ^ 64 - 2 ^ 63)%Z.

Definition is_int (z : Z) : Prop := (- 2 ^ 63 <= z < 2 ^ 63)%Z.

Definition add (a b : Z) : Z := wrap (a + b).
Definition sub (a b : Z) : Z := wrap (a - b).
Definition mul (a b : Z) : Z := wrap (a * b).

(** "isTimeBeforeNow" and "isTimeAfterNow", with the value of
    [time.Now()]. *)
Definition isTimeBeforeNow (now tm : Z) : bool := (tm <? now)%Z.
Definition isTimeAfterNow (now tm : Z) : bool := (now <? tm)%Z.

(** "truncateName": [parts[0]] of the split on spaces. *)
Definition truncateName (s : string) : go string :=
  let parts := strings_Split s " " in
  index parts 0.

Definition replaceDash (s : string) : string := strings_ReplaceAll s "-" " ".

Definition symbols : gmap string string :=
  list_to_map
    [("USD", "$"); ("EUR", "€"); ("JPY", "¥"); ("GBP", "£"); ("AUD", "A$");
     ("CAD", "C$"); ("CHF", "Fr"); ("CNY", "元"); ("HKD", "HK$"); ("NZD", "NZ$");
     ("SEK", "kr"); ("KRW", "₩"); ("SGD", "S$"); ("NOK", "kr"); ("MXN", "MX$");
     ("INR", "₹"); ("RUB", "₽"); ("ZAR", "R"); ("TRY", "₺"); ("BRL", "R$")].

Definition currencysymbol (currency : string) : string :=
  match symbols !! currency with
  | Some symbol => symbol
  | None => "$"
  end.

(** [StringToHTML] is a conversion of type. *)
Definition StringToHTML (s : string) : string := s.

End template.

(** ** Package middleware *)

Module middleware.
Import http.

Definition HTTPSMiddleware (next : Handler) (env : string) : Handler :=
  fun w r =>
    let w1 :=
      if negb (String.eqb env "dev")
         && negb (String.eqb (Header_Get (Header r) "X-Forwarded-Proto") "https")
      then
        let target := "https://" +:+ Host r +:+ URL_Path r in
        w ++ [Redirect target StatusMovedPermanently]
      else w in
    next w1 r.

Definition HeadersMiddleware (next : Handler) (env : string) : Handler :=
  fun w r =>
    if negb (String.eqb env "dev") then
      if strings_Contains (Header_Get (Header r) "User-Agent") "HeadlessChrome" then
        w ++ [WriteHeader StatusTeapot]
      else
        next
          (w ++ [Header_Set "Content-Security-Policy" "upgrade-insecure-requests";
                 Header_Set "X-Frame-Options" "deny";
                 Header_Set "X-XSS-Protection" "1; mode=block";
                 Header_Set "X-Content-Type-Options" "nosniff";
                 Header_Set "Strict-Transport-Security" "max-age=31536000; includeSubDomains";
                 Header_Set "Referrer-Policy" "origin"])
          r
    else next w r.

(** *** Sessions, the identity provider and the JWT library

    These are libraries outside the repository; each is modelled by what
    the middleware gets back from its calls. *)

(** A value of type [interface{}] kept in a session. *)
Inductive any : Type :=
  | any_string (s : string)
  | any_int (n : Z)
  | any_bool (b : bool).

Record Session : Type := {
  IsNew : bool;
  Values : gmap string any
}.

(** [*sessions.CookieStore]: [Get(r, name)]. *)
Record CookieStore : Type := {
  Get : Request -> string -> Session * option error
}.

(** [v.(string)] with the comma-ok form; a missing key is a nil
    interface value. *)
Definition assert_string (v : option any) : string * bool :=
  match v with
  | Some (any_string s) => (s, true)
  | _ => ("", false)
  end.

(** [*auth.Client]: [VerifyIDToken(ctx, idToken)]. *)
Record auth_Client : Type := {
  VerifyIDToken : string -> option auth_Token * option error
}.

Record StandardClaims : Type := {
  Audience : string;
  ExpiresAt : Z;
  Id : string;
  IssuedAt : Z;
  Issuer : string;
  NotBefore : Z;
  Subject : string
}.

Record UserJWT : Type := {
  IsAdmin : bool;
  IsRecruiter : bool;
  IsDeveloper : bool;
  UserID : string;
  Email : string;
  Type_ : string;
  CreatedAt : Z;
  Standard : StandardClaims
}.

(** A value of the interface [jwt.Claims]: nil, a [*UserJWT] (itself
    possibly nil), or a value of another type. *)
Inductive Claims : Type :=
  | nil_Claims
  | ptr_UserJWT (p : option UserJWT)
  | other_Claims.

Record Token : Type := {
  Raw : string;
  Claims_ : Claims;
  Valid : bool
}.

(** The assertion of [token.Claims] to a pointer to [UserJWT], with the
    comma-ok form. *)
Definition assert_UserJWT (c : Claims) : option UserJWT * bool :=
  match c with
  | ptr_UserJWT p => (p, true)
  | _ => (None, false)
  end.

(** What jwt-go makes of a token string and a key: no token at all (the
    string has not three segments), a token whose header does not decode
    (its claims are never set), or a token whose claims were decoded into
    the value passed to [ParseWithClaims], valid or not. *)
Inductive parsed : Type :=
  | no_token
  | bad_header
  | decoded (claims : UserJWT) (valid : bool).

Section jwt.

(** The decoding done by jwt-go, with the error it reports. *)
Variable jwt_parse : string -> list Byte.byte -> parsed * option error.

(** [jwt.ParseWithClaims] called with the token string, a fresh
    [&UserJWT{}] and a key function that returns [jwtKey]: the token
    returned holds the claims pointer it was given. *)
Definition ParseWithClaims (tokenString : string) (jwtKey : list Byte.byte)
  : option Token * option error :=
  let '(p, err) := jwt_parse tokenString jwtKey in
  match p with
  | no_token => (None, err)
  | bad_header =>
      (Some {| Raw := tokenString; Claims_ := nil_Claims; Valid := false |}, err)
  | decoded claims valid =>
      (Some {| Raw := tokenString; Claims_ := ptr_UserJWT (Some claims); Valid := valid |},
       err)
  end.

Definition GetUserFromJWT (r : Request) (sessionStore : CookieStore)
    (jwtKey : list Byte.byte) : go (option UserJWT * option error) :=
  let '(sess, err) := Get sessionStore r "____gc" in
  match err with
  | Some _ => Returns (None, Some (errors_New "could not find cookie"))
  | None =>
      let '(tk, ok) := assert_string (Values sess !! "jwt") in
      if negb ok then Returns (None, Some (errors_New "could not find jwt in session"))
      else
        let '(token, err) := ParseWithClaims tk jwtKey in
        match token with
        | None => Panics "invalid memory address or nil pointer dereference"
        | Some token =>
            if negb (Valid token) then
              Returns (None, Some (errors_New "token is expired"))
            else
              let '(claims, ok) := assert_UserJWT (Claims_ token) in
              if negb ok then
                Returns (None, Some (errors_New "could not convert jwt claims to UserJWT"))
              else Returns (claims, None)
        end
  end.

Definition IsSignedOn (r : Request) (sessionStore : CookieStore)
    (jwtKey : list Byte.byte) : go bool :=
  let '(sess, err) := Get sessionStore r "____gc" in
  match err with
  | Some _ => Returns false
  | None =>
      let '(tk, ok) := assert_string (Values sess !! "jwt") in
      if negb ok then Returns false
      else
        let '(token, err) := ParseWithClaims tk jwtKey in
        match token with
        | None => Panics "invalid memory address or nil pointer dereference"
        | Some token =>
            if negb (Valid token) then Returns false
            else if negb ok then Returns false
            else Returns true
        end
  end.

End jwt.

(** What is printed on standard output ("Session is new",
    "redirecting to auth") is not part of the response and is left out. *)
Definition authenticateFromCookie (sessionStore : CookieStore) (authClient : auth_Client)
    (r : Request) : option auth_Token * option error :=
  let '(sess, err) := Get sessionStore r "____gc" in
  match err with
  | Some _ => (None, Some ErrNoAuthSession)
  | None =>
      let '(tk, ok) := assert_string (Values sess !! "jwt") in
      if negb ok then (None, Some ErrNoAuthCookie)
      else
        let '(authToken, err) := VerifyIDToken authClient tk in
        match err with
        | Some _ => (None, Some ErrTokenVerificationFailed)
        | None => (authToken, None)
        end
  end.

Definition UserAuthenticatedMiddleware (sessionStore : CookieStore)
    (authClient : auth_Client) (next : Handler) : Handler :=
  fun w r =>
    let '(tk, err) := authenticateFromCookie sessionStore authClient r in
    match err with
    | Some _ => w ++ [WriteHeader StatusUnauthorized]
    | None => next w (WithValue r "authToken" tk)
    end.

Definition UserAuthenticatedPageMiddleware (sessionStore : CookieStore)
    (authClient : auth_Client) (next : Handler) : Handler :=
  fun w r =>
    let '(tk, err) := authenticateFromCookie sessionStore authClient r in
    if bool_decide (err = Some ErrNoAuthSession) || bool_decide (err = Some ErrNoAuthCookie)
    then w ++ [Redirect "/auth" StatusUnauthorized]
    else
      let directTo :=
        if String.eqb (URL_Path r) "" then "/profile/home" else URL_Path r in
      if bool_decide (err = Some ErrTokenVerificationFailed) then
        w ++ [Redirect ("/autologin?directto=" +:+ directTo) StatusSeeOther]
      else next w (WithValue r "authToken" tk).

(** *** The other authentication middleware *)

Definition MachineAuthenticatedMiddleware (machineToken : string) (next : Handler) : Handler :=
  fun w r =>
    let token := Header_Get (Header r) "x-machine-token" in
    if negb (String.eqb token machineToken) then w ++ [WriteHeader StatusUnauthorized]
    else next w r.

Definition InjectAuthTokenMiddleware (sessionStore : CookieStore)
    (authClient : auth_Client) (next : Handler) : Handler :=
  fun w r =>
    let '(tk, err) := authenticateFromCookie sessionStore authClient r in
    let directTo := URL_Path r in
    if bool_decide (err = Some ErrTokenVerificationFailed) then
      w ++ [Redirect ("/autologin?directto=" +:+ directTo) StatusSeeOther]
    else
      let r1 := if bool_decide (err = None) then WithValue r "authToken" tk else r in
      next w r1.

Section jwt_admin.

(** The decoding done by jwt-go, as for [GetUserFromJWT]. *)
Variable jwt_parse : string -> list Byte.byte -> parsed * option error.

(** [token.Valid] and [claims.IsAdmin] are read through pointers: a nil
    one is a run-time panic. *)
Definition AdminAuthenticatedMiddleware (sessionStore : CookieStore)
    (jwtKey : list Byte.byte) (next : Handler)
  : ResponseWriter -> Request -> go ResponseWriter :=
  fun w r =>
    let '(sess, err) := Get sessionStore r "____gc" in
    match err with
    | Some _ => Returns (w ++ [Redirect "/auth" StatusUnauthorized])
    | None =>
        let '(tk, ok) := assert_string (Values sess !! "jwt") in
        if negb ok then Returns (w ++ [Redirect "/auth" StatusUnauthorized])
        else
          let '(token, err) := ParseWithClaims jwt_parse tk jwtKey in
          match token with
          | None => Panics "invalid memory address or nil pointer dereference"
          | Some token =>
              if negb (Valid token) then
                Returns (w ++ [Redirect "/auth" StatusUnauthorized])
              else
                let '(claims, ok) := assert_UserJWT (Claims_ token) in
                if negb ok then Returns (w ++ [Redirect "/auth" StatusUnauthorized])
                else
                  match claims with
                  | None => Panics "invalid memory address or nil pointer dereference"
                  | Some claims =>
                      if negb (IsAdmin claims) then
                        Returns (w ++ [Redirect "/auth" StatusUnauthorized])
                      else Returns (next w r)
                  end
          end
    end.

End jwt_admin.

End middleware.

(** ** Package user *)

Module user.

Definition UserTypeDeveloper : string := "jobseeker".
Definition UserTypeAdmin : string := "admin".
Definition UserTypeRecruiter : string := "workerseeker".

Record User : Type := {
  ID : string;
  Email : string;
  EmailVerified : bool;
  AccessToken : string;
  RefreshToken : string;
  ExpirationTime : Z;
  CreatedAt : Z;
  Type_ : string;
  IsAdmin : bool;
  CreatedAtHumanised : string
}.

(** [User{}] *)
Definition User_zero : User :=
  {| ID := ""; Email := ""; EmailVerified := false; AccessToken := "";
     RefreshToken := ""; ExpirationTime := 0; CreatedAt := 0; Type_ := "";
     IsAdmin := false; CreatedAtHumanised := "" |}.

(** *** The database

    The four tables the statements of the repository name, with the
    columns they name; a column that may hold NULL is an [option].  The
    table users is given the column token that the lookup of
    [GetOrCreateUserFromToken] filters on. *)

Record users_row : Type := {
  u_id : option string;
  u_email : option string;
  u_created_at : option Z;
  u_user_type : option string;
  u_email_verified : option bool;
  u_access_token : option string;
  u_refresh_token : option string;
  u_expiration_time : option Z;
  u_token : option string
}.

Record token_row : Type := {
  t_token : option string;
  t_email : option string;
  t_user_type : option string;
  t_created_at : option Z
}.

Record profile_row : Type := { p_email : option string }.

Record Tables : Type := {
  users : list users_row;
  user_sign_on_token : list token_row;
  recruiter_profile : list profile_row;
  developer_profile : list profile_row
}.

(** The statements the repository sends, with their arguments. *)
Inductive statement : Type :=
  | insert_user_sign_on_token (token email user_type : string)
  | select_user_by_id (id : string)
  | select_user_by_token (token : string)
  | insert_user (id email : string) (created_at : Z) (user_type : string)
  | delete_expired_tokens
  | select_user_type_by_email (email : string)
  | select_recruiter_by_email (email : string)
  | select_developer_by_email (email : string).

Definition SQL (s : statement) : string :=
  match s with
  | insert_user_sign_on_token _ _ _ =>
      "INSERT INTO user_sign_on_token (token, email, user_type, created_at) VALUES ($1, $2, $3, NOW())"
  | select_user_by_id _ =>
      "SELECT id, email, created_at, user_type, email_verified, access_token, refresh_token, expiration_time FROM users where id = $1"
  | select_user_by_token _ =>
      "SELECT id, email, created_at, user_type, email_verified, access_token, expiration_time FROM users where token = $1"
  | insert_user _ _ _ _ =>
      "INSERT INTO users (id, email, created_at, user_type) VALUES ($1, $2, $3, $4)"
  | delete_expired_tokens =>
      "DELETE FROM user_sign_on_token WHERE created_at < NOW() - INTERVAL '7 DAYS'"
  | select_user_type_by_email _ =>
      "SELECT user_type FROM users WHERE email = $1"
  | select_recruiter_by_email _ =>
      "SELECT 'recruiter' FROM recruiter_profile WHERE email = $1"
  | select_developer_by_email _ =>
      "SELECT 'developer' FROM developer_profile WHERE email = $1"
  end.

(** A value of a result row. *)
Inductive value : Type :=
  | NULL
  | text (s : string)
  | timestamp (tm : Z)
  | boolean (b : bool).

Definition text_of (c : option string) : value := from_option text NULL c.
Definition timestamp_of (c : option Z) : value := from_option timestamp NULL c.
Definition boolean_of (c : option bool) : value := from_option boolean NULL c.

(** [column = $1]: never true of NULL. *)
Definition sql_eq (column : option string) (arg : string) : bool :=
  match column with
  | Some c => String.eqb c arg
  | None => false
  end.

(** Times are counted in microseconds. *)
Definition seven_days : Z := 7 * 24 * 60 * 60 * 1000000.

(** [created_at < NOW() - INTERVAL '7 DAYS']: never true of NULL. *)
Definition expired (now : Z) (row : token_row) : bool :=
  match t_created_at row with
  | Some created_at => (created_at <? now - seven_days)%Z
  | None => false
  end.

(** What a statement does to the tables at time [now], and the rows it
    yields. *)
Definition run (s : statement) (tb : Tables) (now : Z) : Tables * list (list value) :=
  match s with
  | insert_user_sign_on_token token email user_type =>
      ({| users := users tb;
          user_sign_on_token :=
            user_sign_on_token tb
            ++ [{| t_token := Some token; t_email := Some email;
                   t_user_type := Some user_type; t_created_at := Some now |}];
          recruiter_profile := recruiter_profile tb;
          developer_profile := developer_profile tb |}, [])
  | select_user_by_id id =>
      (tb,
       map (fun u => [text_of (u_id u); text_of (u_email u); timestamp_of (u_created_at u);
                      text_of (u_user_type u); boolean_of (u_email_verified u);
                      text_of (u_access_token u); text_of (u_refresh_token u);
                      timestamp_of (u_expiration_time u)])
         (List.filter (fun u => sql_eq (u_id u) id) (users tb)))
  | select_user_by_token token =>
      (tb,
       map (fun u => [text_of (u_id u); text_of (u_email u); timestamp_of (u_created_at u);
                      text_of (u_user_type u); boolean_of (u_email_verified u);
                      text_of (u_access_token u); timestamp_of (u_expiration_time u)])
         (List.filter (fun u => sql_eq (u_token u) token) (users tb)))
  | insert_user id email created_at user_type =>
      ({| users :=
            users tb
            ++ [{| u_id := Some id; u_email := Some email; u_created_at := Some created_at;
                   u_user_type := Some user_type; u_email_verified := None;
                   u_access_token := None; u_refresh_token := None;
                   u_expiration_time := None; u_token := None |}];
          user_sign_on_token := user_sign_on_token tb;
          recruiter_profile := recruiter_profile tb;
          developer_profile := developer_profile tb |}, [])
  | delete_expired_tokens =>
      ({| users := users tb;
          user_sign_on_token :=
            List.filter (fun row => negb (expired now row)) (user_sign_on_token tb);
          recruiter_profile := recruiter_profile tb;
          developer_profile := developer_profile tb |}, [])
  | select_user_type_by_email email =>
      (tb,
       map (fun u => [text_of (u_user_type u)])
         (List.filter (fun u => sql_eq (u_email u) email) (users tb)))
  | select_recruiter_by_email email =>
      (tb,
       map (fun _ => [text "recruiter"])
         (List.filter (fun p => sql_eq (p_email p) email) (recruiter_profile tb)))
  | select_developer_by_email email =>
      (tb,
       map (fun _ => [text "developer"])
         (List.filter (fun p => sql_eq (p_email p) email) (developer_profile tb)))
  end.

(** The database behind [*sql.DB]: its tables, its clock, the
    statements it was sent (oldest first), and for the calls to come
    whether the driver fails them ([Some err]) or lets them run; when
    the list is used up every call runs. *)
Record DB : Type := {
  tables : Tables;
  NOW : Z;
  faults : list (option error);
  executed : list statement
}.

(** The error the next call dies of, if the driver fails it. *)
Definition next_fault (db : DB) : option error :=
  match faults db with
  | Some err :: _ => Some err
  | _ => None
  end.

(** One round trip: the statement is sent; the driver fails it, or it
    runs on the tables. *)
Definition send (s : statement) (db : DB) : DB * (list (list value) + error) :=
  match next_fault db with
  | Some err =>
      ({| tables := tables db; NOW := NOW db; faults := tail (faults db);
          executed := executed db ++ [s] |}, inr err)
  | None =>
      let '(tb, rows) := run s (tables db) (NOW db) in
      ({| tables := tb; NOW := NOW db; faults := tail (faults db);
          executed := executed db ++ [s] |}, inl rows)
  end.

(** [r.db.Exec(...)], keeping the error only. *)
Definition Exec (s : statement) (db : DB) : DB * option error :=
  let '(db', res) := send s db in
  (db', match res with inl _ => None | inr err => Some err end).

(** [r.db.QueryRow(...)]: the first row, which [Scan] then reads;
    without a row [Scan] gives [sql.ErrNoRows]. *)
Definition QueryRow (s : statement) (db : DB) : DB * (list value + error) :=
  let '(db', res) := send s db in
  (db', match res with
        | inl (row :: _) => inl row
        | inl [] => inr sql_ErrNoRows
        | inr err => inr err
        end).

(** *** Scan destinations *)

Record NullString : Type := { String_ : string; NullString_Valid : bool }.
Record NullTime : Type := { Time : Z; NullTime_Valid : bool }.
Record NullBool : Type := { Bool : bool; NullBool_Valid : bool }.

Definition scan_error : error := lib_error "sql: Scan error: unsupported conversion".

Definition Scan_NullString (v : value) : NullString + error :=
  match v with
  | NULL => inl {| String_ := ""; NullString_Valid := false |}
  | text s => inl {| String_ := s; NullString_Valid := true |}
  | _ => inr scan_error
  end.

Definition Scan_NullTime (v : value) : NullTime + error :=
  match v with
  | NULL => inl {| Time := 0; NullTime_Valid := false |}
  | timestamp tm => inl {| Time := tm; NullTime_Valid := true |}
  | _ => inr scan_error
  end.

Definition Scan_NullBool (v : value) : NullBool + error :=
  match v with
  | NULL => inl {| Bool := false; NullBool_Valid := false |}
  | boolean b => inl {| Bool := b; NullBool_Valid := true |}
  | _ => inr scan_error
  end.

(** Into a plain [string]: NULL cannot be converted. *)
Definition Scan_string (v : value) : string + error :=
  match v with
  | text s => inl s
  | _ => inr scan_error
  end.

Definition bind {A B : Type} (x : A + error) (k : A -> B + error) : B + error :=
  match x with
  | inl a => k a
  | inr err => inr err
  end.

Notation "x <~ c ;; k" := (bind c (fun x => k))
  (at level 100, c at next level, right associativity).

(** *** The repository *)

Definition SaveTokenSignOn (db : DB) (email token userType : string) : DB * option error :=
  Exec (insert_user_sign_on_token token email userType) db.

Definition GetUser (db : DB) (user_id : string) : DB * (option User * option error) :=
  let '(db1, row) := QueryRow (select_user_by_id user_id) db in
  let scanned :=
    row <~ row;;
    match row with
    | [c1; c2; c3; c4; c5; c6; c7; c8] =>
        id <~ Scan_NullString c1;;
        email <~ Scan_NullString c2;;
        createdAt <~ Scan_NullTime c3;;
        userType <~ Scan_NullString c4;;
        emailVerified <~ Scan_NullBool c5;;
        accessToken <~ Scan_NullString c6;;
        refreshToken <~ Scan_NullString c7;;
        expirationTime <~ Scan_NullTime c8;;
        inl (id, email, createdAt, userType, emailVerified, accessToken, refreshToken,
             expirationTime)
    | _ => inr scan_error
    end in
  match scanned with
  | inr err =>
      if bool_decide (err = sql_ErrNoRows) then (db1, (None, None))
      else (db1, (None, Some err))
  | inl (id, email, createdAt, userType, emailVerified, accessToken, refreshToken, _) =>
      (db1,
       (Some {| ID := String_ id; Email := String_ email;
                EmailVerified := Bool emailVerified;
                AccessToken := String_ accessToken;
                RefreshToken := String_ refreshToken;
                ExpirationTime := 0;
                CreatedAt := Time createdAt;
                Type_ := String_ userType;
                IsAdmin := false; CreatedAtHumanised := "" |}, None))
  end.

(** What [GetOrCreateUserFromToken] takes from outside the database:
    the outcome of [ksuid.NewRandom], the clock of [time.Now] and
    [humanize.Time]. *)
Record Env : Type := {
  ksuid_NewRandom : string + error;
  time_Now : Z;
  humanize_Time : Z -> string
}.

Definition GetOrCreateUserFromToken (env : Env) (db : DB) (token : string)
  : DB * (User * bool * option error) :=
  let u := User_zero in
  let '(db1, row) := QueryRow (select_user_by_token token) db in
  let scanned :=
    row <~ row;;
    match row with
    | [c1; c2; c3; c4; c5; c6; c7] =>
        id <~ Scan_NullString c1;;
        email <~ Scan_NullString c2;;
        createdAt <~ Scan_NullTime c3;;
        userType <~ Scan_NullString c4;;
        emailVerified <~ Scan_NullBool c5;;
        accessToken <~ Scan_NullString c6;;
        expirationTime <~ Scan_NullTime c7;;
        inl (id, email, createdAt, userType, emailVerified, accessToken, expirationTime)
    | _ => inr scan_error
    end in
  match scanned with
  | inr err => (db1, (u, false, Some err))
  | inl (id, email, createdAt, userType, _, accessToken, _) =>
      if negb (NullString_Valid accessToken) then
        (db1, (u, false, Some (errors_New "token not found")))
      else if negb (NullString_Valid email) then
        match ksuid_NewRandom env with
        | inr err => (db1, (u, false, Some err))
        | inl userID =>
            let u1 :=
              {| ID := userID; Email := String_ accessToken; EmailVerified := false;
                 AccessToken := ""; RefreshToken := ""; ExpirationTime := 0;
                 CreatedAt := time_Now env; Type_ := String_ userType;
                 IsAdmin := false;
                 CreatedAtHumanised := humanize_Time env (time_Now env) |} in
            let '(db2, err) :=
              Exec (insert_user (ID u1) (Email u1) (CreatedAt u1) (Type_ u1)) db1 in
            match err with
            | Some err => (db2, (User_zero, false, Some err))
            | None => (db2, (u1, false, None))
            end
        end
      else
        (db1,
         ({| ID := String_ id; Email := String_ email; EmailVerified := false;
             AccessToken := ""; RefreshToken := ""; ExpirationTime := 0;
             CreatedAt := Time createdAt; Type_ := String_ userType;
             IsAdmin := false;
             CreatedAtHumanised := humanize_Time env (Time createdAt) |}, true, None))
  end.

Definition DeleteExpiredUserSignOnTokens (db : DB) : DB * option error :=
  Exec delete_expired_tokens db.

Definition GetUserTypeByEmail (db : DB) (email : string) : DB * (string * option error) :=
  let userType := "" in
  let '(db1, row) := QueryRow (select_user_type_by_email email) db in
  match row <~ row;; match row with [c] => Scan_string c | _ => inr scan_error end with
  | inl userType => (db1, (userType, None))
  | inr err =>
      if bool_decide (err = sql_ErrNoRows) then
        let '(db2, row) := QueryRow (select_recruiter_by_email email) db1 in
        match row <~ row;; match row with [c] => Scan_string c | _ => inr scan_error end with
        | inl userType => (db2, (userType, None))
        | inr _ =>
            let '(db3, row) := QueryRow (select_developer_by_email email) db2 in
            match row <~ row;; match row with [c] => Scan_string c | _ => inr scan_error end with
            | inl userType => (db3, (userType, None))
            | inr err => (db3, (userType, Some err))
            end
        end
      else (db1, (userType, Some err))
  end.

(** *** The methods that write to users

    Their statements are kept apart from [statement]; they go through the
    same driver, which fails them when a fault is due, and [executed]
    keeps recording the statements of [statement] only. *)

Inductive update : Type :=
  | insert_full_user (u : User)
  | update_access_token (access_token id : string)
  | update_refresh_token (refresh_token id : string)
  | delete_user_by_email (email : string).

Definition with_users (tb : Tables) (rows : list users_row) : Tables :=
  {| users := rows;
     user_sign_on_token := user_sign_on_token tb;
     recruiter_profile := recruiter_profile tb;
     developer_profile := developer_profile tb |}.

(** INSERT INTO users (id, email, created_at, user_type, email_verified,
    access_token, refresh_token, expiration_time) VALUES ($1, ..., $8);
    UPDATE users SET access_token = $1 WHERE id = $2;
    UPDATE users SET refresh_token = $1 WHERE id = $2;
    DELETE FROM users WHERE email = $1. *)
Definition run_update (s : update) (tb : Tables) : Tables :=
  match s with
  | insert_full_user u =>
      with_users tb
        (users tb
         ++ [{| u_id := Some (ID u); u_email := Some (Email u);
                u_created_at := Some (CreatedAt u); u_user_type := Some (Type_ u);
                u_email_verified := Some (EmailVerified u);
                u_access_token := Some (AccessToken u);
                u_refresh_token := Some (RefreshToken u);
                u_expiration_time := Some (ExpirationTime u); u_token := None |}])
  | update_access_token access_token id =>
      with_users tb
        (map (fun u =>
                if sql_eq (u_id u) id then
                  {| u_id := u_id u; u_email := u_email u; u_created_at := u_created_at u;
                     u_user_type := u_user_type u; u_email_verified := u_email_verified u;
                     u_access_token := Some access_token;
                     u_refresh_token := u_refresh_token u;
                     u_expiration_time := u_expiration_time u; u_token := u_token u |}
                else u)
           (users tb))
  | update_refresh_token refresh_token id =>
      with_users tb
        (map (fun u =>
                if sql_eq (u_id u) id then
                  {| u_id := u_id u; u_email := u_email u; u_created_at := u_created_at u;
                     u_user_type := u_user_type u; u_email_verified := u_email_verified u;
                     u_access_token := u_access_token u;
                     u_refresh_token := Some refresh_token;
                     u_expiration_time := u_expiration_time u; u_token := u_token u |}
                else u)
           (users tb))
  | delete_user_by_email email =>
      with_users tb (List.filter (fun u => negb (sql_eq (u_email u) email)) (users tb))
  end.

Definition Exec_update (s : update) (db : DB) : DB * option error :=
  match next_fault db with
  | Some err =>
      ({| tables := tables db; NOW := NOW db; faults := tail (faults db);
          executed := executed db |}, Some err)
  | None =>
      ({| tables := run_update s (tables db); NOW := NOW db; faults := tail (faults db);
          executed := executed db |}, None)
  end.

Definition CreateUser (db : DB) (u : User) : DB * option error :=
  Exec_update (insert_full_user u) db.

Definition UpdateAccessToken (db : DB) (userId accessToken : string) : DB * option error :=
  Exec_update (update_access_token accessToken userId) db.

Definition UpdateRefreshToken (db : DB) (userId refreshToken : string) : DB * option error :=
  Exec_update (update_refresh_token refreshToken userId) db.

Definition DeleteUserByEmail (db : DB) (email : string) : DB * option error :=
  Exec_update (delete_user_by_email email) db.

End user.

(** ** Sample inputs

    Concrete values on which the properties below are run. *)

Module sample.

Definition views : template.TemplateSet :=
  {[ "index.html" := fun title => (["<h1>"; title; "</h1>"], None) ]}.

(** A template directory with a file that does not parse. *)
Definition broken : template.Disk :=
  fun _ => inr (lib_error "template: index.html:3: unexpected EOF").

Definition running : template.Program :=
  {| template.t := {| template.templates := views; template.watcher := true |};
     template.log := [] |}.

Definition write_index : template.Event :=
  {| template.Name := "static/views/index.html"; template.Op := 2 |}.

(** A handler that writes a body. *)
Definition hello : http.Handler := fun w _ => w ++ [http.Write "hello"].

Definition request (headers : gmap string (list string)) : http.Request :=
  {| http.Method := "GET"; http.Host := "jobs.example.com"; http.URL_Path := "/jobs";
     http.Header := headers; http.Context := [] |}.

Definition over_http : http.Request := request {[ "X-Forwarded-Proto" := ["http"] ]}.

Definition from_headless : http.Request :=
  request {[ "User-Agent" := ["Mozilla/5.0 (X11; Linux x86_64) HeadlessChrome/119.0"] ]}.

Definition from_firefox : http.Request :=
  request {[ "User-Agent" := ["Mozilla/5.0 (X11; Linux x86_64) Firefox/119.0"] ]}.

(** Session stores: one that cannot decode the cookie, one whose
    session has no jwt, one whose session holds a jwt. *)
Definition no_session : middleware.CookieStore :=
  {| middleware.Get := fun _ _ =>
       ({| middleware.IsNew := true; middleware.Values := ∅ |},
        Some (lib_error "securecookie: the value is not valid")) |}.

Definition no_cookie : middleware.CookieStore :=
  {| middleware.Get := fun _ _ =>
       ({| middleware.IsNew := true; middleware.Values := ∅ |}, None) |}.

Definition with_cookie : middleware.CookieStore :=
  {| middleware.Get := fun _ _ =>
       ({| middleware.IsNew := false;
           middleware.Values := {[ "jwt" := middleware.any_string "aaa.bbb.ccc" ]} |}, None) |}.

(** An identity provider that rejects every token. *)
Definition rejecting : middleware.auth_Client :=
  {| middleware.VerifyIDToken := fun _ => (None, Some (lib_error "ID token has expired")) |}.

(** A database with no row, no fault to come and nothing sent yet. *)
Definition no_rows : user.Tables :=
  {| user.users := []; user.user_sign_on_token := [];
     user.recruiter_profile := []; user.developer_profile := [] |}.

Definition day : Z := 24 * 60 * 60 * 1000000.
Definition today : Z := 19700 * day.

Definition empty_db : user.DB :=
  {| user.tables := no_rows; user.NOW := today; user.faults := [];
     user.executed := [] |}.

Definition env0 : user.Env :=
  {| user.ksuid_NewRandom := inl "2XUaFcTsZB4MksPIFh33G7Zdxyz";
     user.time_Now := today;
     user.humanize_Time := fun _ => "now" |}.

(** [empty_db] after a sign-on token was saved for dev@example.com. *)
Definition saved_db : user.DB :=
  fst (user.SaveTokenSignOn empty_db "dev@example.com" "tok-1" "jobseeker").

(** A users row that the lookup by token finds and that has no email. *)
Definition pending : user.users_row :=
  {| user.u_id := None; user.u_email := None; user.u_created_at := None;
     user.u_user_type := Some "jobseeker"; user.u_email_verified := None;
     user.u_access_token := Some "ya29.secret"; user.u_refresh_token := None;
     user.u_expiration_time := None; user.u_token := Some "tok-2" |}.

Definition pending_db : user.DB :=
  {| user.tables :=
       {| user.users := [pending]; user.user_sign_on_token := [];
          user.recruiter_profile := []; user.developer_profile := [] |};
     user.NOW := today; user.faults := []; user.executed := [] |}.

(** A database whose only row is an unverified recruiter. *)
Definition recruiter_db : user.DB :=
  {| user.tables :=
       {| user.users := []; user.user_sign_on_token := [];
          user.recruiter_profile := [{| user.p_email := Some "hr@example.com" |}];
          user.developer_profile := [] |};
     user.NOW := today; user.faults := []; user.executed := [] |}.

Definition sign_on (token : string) (created_at : Z) : user.token_row :=
  {| user.t_token := Some token; user.t_email := Some "dev@example.com";
     user.t_user_type := Some "jobseeker"; user.t_created_at := Some created_at |}.

(** Sign-on tokens that are eight days, exactly seven days and one day
    old. *)
Definition tokens_db : user.DB :=
  {| user.tables :=
       {| user.users := [pending];
          user.user_sign_on_token :=
            [sign_on "old" (today - 8 * day); sign_on "edge" (today - 7 * day);
             sign_on "new" (today - day)];
          user.recruiter_profile := [{| user.p_email := Some "hr@example.com" |}];
          user.developer_profile := [] |};
     user.NOW := today; user.faults := []; user.executed := [] |}.

(** A database whose connection is lost at the next call. *)
Definition failing_db : user.DB :=
  {| user.tables := no_rows; user.NOW := today;
     user.faults := [Some (lib_error "driver: bad connection")];
     user.executed := [] |}.

(** A database with an unverified developer, whose second call the
    driver fails. *)
Definition flaky_db : user.DB :=
  {| user.tables :=
       {| user.users := []; user.user_sign_on_token := [];
          user.recruiter_profile := [];
          user.developer_profile := [{| user.p_email := Some "dev@example.com" |}] |};
     user.NOW := today;
     user.faults := [None; Some (lib_error "driver: bad connection")];
     user.executed := [] |}.

(** An identity provider that accepts every token. *)
Definition accepting : middleware.auth_Client :=
  {| middleware.VerifyIDToken := fun _ => (Some {| http.UID := "uid-1" |}, None) |}.

(** A jwt-go that decodes every token string to the valid claims of an
    administrator, and one that finds no token in any string. *)
Definition admin_claims : middleware.UserJWT :=
  {| middleware.IsAdmin := true; middleware.IsRecruiter := false;
     middleware.IsDeveloper := false; middleware.UserID := "u-1";
     middleware.Email := "admin@example.com"; middleware.Type_ := "admin";
     middleware.CreatedAt := 0;
     middleware.Standard :=
       {| middleware.Audience := ""; middleware.ExpiresAt := 0; middleware.Id := "";
          middleware.IssuedAt := 0; middleware.Issuer := ""; middleware.NotBefore := 0;
          middleware.Subject := "" |} |}.

Definition decodes_admin : string -> list Byte.byte -> middleware.parsed * option error :=
  fun _ _ => (middleware.decoded admin_claims true, None).

Definition decodes_nothing : string -> list Byte.byte -> middleware.parsed * option error :=
  fun _ _ =>
    (middleware.no_token, Some (lib_error "token contains an invalid number of segments")).

(** A request to the root of the site, with an empty path. *)
Definition to_root : http.Request :=
  {| http.Method := "GET"; http.Host := "jobs.example.com"; http.URL_Path := "";
     http.Header := ∅; http.Context := [] |}.

Definition a_user : user.User :=
  {| user.ID := "u-1"; user.Email := "dev@example.com"; user.EmailVerified := true;
     user.AccessToken := "at-1"; user.RefreshToken := "rt-1";
     user.ExpirationTime := today + day; user.CreatedAt := today;
     user.Type_ := "jobseeker"; user.IsAdmin := true;
     user.CreatedAtHumanised := "now" |}.

(** A database with a member whose users row carries a token. *)
Definition member_db : user.DB :=
  {| user.tables :=
       {| user.users :=
            [{| user.u_id := Some "u-3"; user.u_email := Some "member@example.com";
                user.u_created_at := Some (today - 30 * day)%Z;
                user.u_user_type := Some "workerseeker";
                user.u_email_verified := Some true;
                user.u_access_token := Some "at-3"; user.u_refresh_token := None;
                user.u_expiration_time := None; user.u_token := Some "tok-3" |}];
          user.user_sign_on_token := []; user.recruiter_profile := [];
          user.developer_profile := [] |};
     user.NOW := today; user.faults := []; user.executed := [] |}.

End sample.

(** * Properties *)

(** ** Template renderer *)

Lemma len_app_one {A : Type} (a : list A) (x : A) : len (a ++ [x]) = (len a + 1)%Z.
Proof. unfold len. rewrite length_app. simpl. lia. Qed.

Lemma index_last {A : Type} (a : list A) (x : A) : index (a ++ [x]) (len a) = Returns x.
Proof.
  unfold index. rewrite len_app_one.
  assert (Hlen : (0 <= len a)%Z) by (unfold len; lia).
  replace ((0 <=? len a)%Z && (len a <? len a + 1)%Z) with true
    by (symmetry; apply andb_true_iff; split; [apply Z.leb_le | apply Z.ltb_lt]; lia).
  unfold len. rewrite Nat2Z.id, list_lookup_middle by reflexivity. reflexivity.
Qed.

(** C9: the template helper "last" returns on every slice of integers:
    -1 on the empty slice and the final element on a slice that has one;
    the indexing it does is never out of bounds (it never panics). *)
Theorem last_total :
  template.last [] = Returns (-1)%Z
  /\ (forall (a : list Z) (x : Z), template.last (a ++ [x]) = Returns x)
  /\ (forall a : list Z, exists v : Z, template.last a = Returns v).
Proof.
  assert (Hsnoc : forall (a : list Z) (x : Z), template.last (a ++ [x]) = Returns x).
  { intros a x. unfold template.last. rewrite len_app_one.
    assert (Hlen : (0 <= len a)%Z) by (unfold len; lia).
    destruct (Z.eqb_spec (len a + 1) 0) as [Heq | _]; [lia |].
    replace (len a + 1 - 1)%Z with (len a) by lia. apply index_last. }
  split; [reflexivity | split; [exact Hsnoc |]].
  intros a. induction a as [| x a _] using rev_ind.
  - exists (-1)%Z. reflexivity.
  - exists x. apply Hsnoc.
Qed.

(** C3 (as the code has it): in development mode, when a write event of a
    watched template file arrives and the template directory fails to
    re-parse, [createTemplateFromGlob] panics.  The line "modified file
    ..., reloading templates" is the only one logged, the template set is
    not replaced, and the panic ends the goroutine and the program: no
    later event is handled. *)
Theorem reload_failure_is_fatal
    (disk : template.Disk) (p : template.Program) (event : template.Event) (err : error)
    (ms : list (template.Disk * template.received)) :
  template.Has event template.fsnotify_Write = true ->
  disk "static/views/*.html" = inr err ->
  template.watch ((disk, template.from_Events (Some event)) :: ms) p
  = ({| template.t := template.t p;
        template.log :=
          template.log p
          ++ ["modified file " +:+ template.Name event +:+ ", reloading templates"] |},
     template.panicked (Error err)).
Proof.
  intros Hwrite Hparse. simpl. unfold template.createTemplateFromGlob.
  rewrite Hwrite, Hparse. reflexivity.
Qed.

Lemma reload_failure_is_fatal_witness :
  template.watch [(sample.broken, template.from_Events (Some sample.write_index))]
    sample.running
  = ({| template.t := template.t sample.running;
        template.log := ["modified file static/views/index.html, reloading templates"] |},
     template.panicked "template: index.html:3: unexpected EOF").
Proof.
  apply (reload_failure_is_fatal sample.broken sample.running sample.write_index
           (lib_error "template: index.html:3: unexpected EOF") []); reflexivity.
Defined.

(** What does not end the watching goroutine: a write event on a
    directory that parses replaces the template set, any other event
    leaves it, and an error of the watcher is logged. *)
Lemma watch_turn_goes_on
    (disk : template.Disk) (p : template.Program) (event : template.Event) (err : error) :
  (forall ts : template.TemplateSet,
     template.Has event template.fsnotify_Write = true ->
     disk "static/views/*.html" = inl ts ->
     exists p' : template.Program,
       template.watch_turn disk p (template.from_Events (Some event))
       = (p', template.goes_on)
       /\ template.templates (template.t p') = ts)
  /\ (template.Has event template.fsnotify_Write = false ->
      template.watch_turn disk p (template.from_Events (Some event))
      = (p, template.goes_on))
  /\ template.watch_turn disk p (template.from_Errors (Some err))
     = ({| template.t := template.t p;
           template.log := template.log p ++ ["error from file watcher: " +:+ Error err] |},
        template.goes_on).
Proof.
  split; [| split].
  - intros ts Hwrite Hparse. simpl. unfold template.createTemplateFromGlob.
    rewrite Hwrite, Hparse. eexists. split; reflexivity.
  - intros Hother. simpl. now rewrite Hother.
  - reflexivity.
Qed.

(** C3 as stated does not hold: after a write event on a directory that
    does not parse, the loop does not go on with the previous template
    set. *)
Lemma reload_failure_not_survived :
  ~ (exists p' : template.Program,
       template.watch_turn sample.broken sample.running
         (template.from_Events (Some sample.write_index)) = (p', template.goes_on)
       /\ template.templates (template.t p') = template.templates (template.t sample.running)).
Proof. intros (p' & Hturn & _). discriminate Hturn. Qed.

(** ** Middleware *)

Lemma Status_app_fresh (w : http.ResponseWriter) (c : http.call) :
  http.Status w = None -> http.Status (w ++ [c]) = http.Status [c].
Proof.
  induction w as [| c' w IH]; [reflexivity |].
  destruct c'; simpl; intros H; try discriminate H. now apply IH.
Qed.

(** The errors of [authenticateFromCookie] are the three kinds. *)
Lemma authenticateFromCookie_errors
    (store : middleware.CookieStore) (client : middleware.auth_Client) (r : http.Request)
    (err : error) :
  snd (middleware.authenticateFromCookie store client r) = Some err ->
  err = ErrNoAuthSession \/ err = ErrNoAuthCookie \/ err = ErrTokenVerificationFailed.
Proof.
  unfold middleware.authenticateFromCookie.
  destruct (middleware.Get store r "____gc") as [sess [e |]]; simpl.
  - intros [= <-]. now left.
  - destruct (middleware.assert_string _) as [tk [|]]; simpl.
    + destruct (middleware.VerifyIDToken client tk) as [tok [e |]]; simpl.
      * intros [= <-]. now right; right.
      * discriminate.
    + intros [= <-]. now right; left.
Qed.

(** What makes each failure kind of [authenticateFromCookie]: an error
    of the session store is a missing session; a session without a string
    under "jwt" is a missing cookie; an error of the identity provider on
    that string is a failed verification. *)
Lemma authenticateFromCookie_kinds
    (store : middleware.CookieStore) (client : middleware.auth_Client) (r : http.Request) :
  let sess := fst (middleware.Get store r "____gc") in
  let serr := snd (middleware.Get store r "____gc") in
  (serr <> None ->
   middleware.authenticateFromCookie store client r = (None, Some ErrNoAuthSession))
  /\ (serr = None ->
      (forall jwt : string,
         middleware.Values sess !! "jwt" <> Some (middleware.any_string jwt)) ->
      middleware.authenticateFromCookie store client r = (None, Some ErrNoAuthCookie))
  /\ (forall jwt : string,
        serr = None ->
        middleware.Values sess !! "jwt" = Some (middleware.any_string jwt) ->
        snd (middleware.VerifyIDToken client jwt) <> None ->
        middleware.authenticateFromCookie store client r
        = (None, Some ErrTokenVerificationFailed)).
Proof.
  unfold middleware.authenticateFromCookie.
  destruct (middleware.Get store r "____gc") as [sess [e |]]; cbn [fst snd].
  - split; [reflexivity |]. split; [discriminate | intros jwt [=]].
  - split; [intros H; now contradiction H |]. split.
    + intros _ Hnone.
      destruct (middleware.Values sess !! "jwt") as [[jwt | n | b] |]; try reflexivity.
      now contradiction (Hnone jwt).
    + intros jwt _ -> Hverify. cbn.
      destruct (middleware.VerifyIDToken client jwt) as [tok [e |]]; [reflexivity |].
      now contradiction Hverify.
Qed.

(** C4 (what the code does, failure kind by failure kind): on a missing
    session and on a missing cookie the page middleware calls
    [http.Redirect] to /auth with status 401, so the response is a 401
    and no redirect; on a failed token verification it answers with the
    303 redirect to the autologin page; the API middleware answers 401 on
    each kind.  No response depends on the wrapped handler: it is not
    invoked. *)
Theorem cookie_auth_failure_responses
    (store : middleware.CookieStore) (client : middleware.auth_Client)
    (next : http.Handler) (w : http.ResponseWriter) (r : http.Request) :
  http.Status w = None ->
  let sess := fst (middleware.Get store r "____gc") in
  let serr := snd (middleware.Get store r "____gc") in
  let api := middleware.UserAuthenticatedMiddleware store client next w r in
  let page := middleware.UserAuthenticatedPageMiddleware store client next w r in
  let directTo :=
    if String.eqb (http.URL_Path r) "" then "/profile/home" else http.URL_Path r in
  (serr <> None ->
   api = w ++ [http.WriteHeader 401] /\ http.Status api = Some 401%Z
   /\ page = w ++ [http.Redirect "/auth" 401] /\ http.Status page = Some 401%Z)
  /\ (serr = None ->
      (forall jwt : string,
         middleware.Values sess !! "jwt" <> Some (middleware.any_string jwt)) ->
      api = w ++ [http.WriteHeader 401] /\ http.Status api = Some 401%Z
      /\ page = w ++ [http.Redirect "/auth" 401] /\ http.Status page = Some 401%Z)
  /\ (forall jwt : string,
        serr = None ->
        middleware.Values sess !! "jwt" = Some (middleware.any_string jwt) ->
        snd (middleware.VerifyIDToken client jwt) <> None ->
        api = w ++ [http.WriteHeader 401] /\ http.Status api = Some 401%Z
        /\ page = w ++ [http.Redirect ("/autologin?directto=" +:+ directTo) 303]
        /\ http.Status page = Some 303%Z).
Proof.
  intros Hfresh sess serr api page directTo.
  destruct (authenticateFromCookie_kinds store client r) as (Hsession & Hcookie & Hverify).
  fold sess serr in Hsession, Hcookie, Hverify.
  subst api page directTo.
  unfold middleware.UserAuthenticatedMiddleware, middleware.UserAuthenticatedPageMiddleware.
  assert (Hanswer : forall (a p ra rp : http.ResponseWriter) (ca cp : http.call),
            a = ra -> p = rp -> ra = w ++ [ca] -> rp = w ++ [cp] ->
            a = w ++ [ca] /\ http.Status a = http.Status [ca]
            /\ p = w ++ [cp] /\ http.Status p = http.Status [cp]).
  { intros a p ra rp ca cp -> -> -> ->. repeat split; now apply Status_app_fresh. }
  split; [| split].
  - intros Hs. rewrite (Hsession Hs).
    eapply (Hanswer _ _ _ _ (http.WriteHeader 401) (http.Redirect "/auth" 401));
      reflexivity.
  - intros Hs Hnone. rewrite (Hcookie Hs Hnone).
    eapply (Hanswer _ _ _ _ (http.WriteHeader 401) (http.Redirect "/auth" 401));
      reflexivity.
  - intros jwt Hs Hjwt Hv. rewrite (Hverify jwt Hs Hjwt Hv).
    eapply (Hanswer _ _ _ _ (http.WriteHeader 401)
              (http.Redirect
                 ("/autologin?directto="
                  +:+ (if String.eqb (http.URL_Path r) "" then "/profile/home"
                       else http.URL_Path r)) 303));
      reflexivity.
Qed.

Lemma cookie_auth_failure_responses_witness :
  middleware.UserAuthenticatedPageMiddleware sample.no_session sample.rejecting sample.hello
    [] sample.over_http
  = [http.Redirect "/auth" 401]
  /\ http.Status
       (middleware.UserAuthenticatedPageMiddleware sample.no_session sample.rejecting
          sample.hello [] sample.over_http)
     = Some 401%Z.
Proof.
  destruct (proj1 (cookie_auth_failure_responses sample.no_session sample.rejecting
                     sample.hello [] sample.over_http eq_refl))
    as (_ & _ & Hpage & Hstatus); [discriminate |].
  split; [exact Hpage | exact Hstatus].
Defined.

(** C5 (what the code does where the claim fails): outside development,
    on a request whose X-Forwarded-Proto is not https, [HTTPSMiddleware]
    writes the 301 redirect to the https URL of the same host and path and
    then runs the wrapped handler on the same response all the same. *)
Theorem HTTPSMiddleware_redirect_falls_through
    (next : http.Handler) (env : string) (w : http.ResponseWriter) (r : http.Request) :
  env <> "dev" ->
  http.Header_Get (http.Header r) "X-Forwarded-Proto" <> "https" ->
  middleware.HTTPSMiddleware next env w r
  = next (w ++ [http.Redirect ("https://" +:+ http.Host r +:+ http.URL_Path r) 301]) r.
Proof.
  intros Henv Hproto. unfold middleware.HTTPSMiddleware.
  apply String.eqb_neq in Henv, Hproto. rewrite Henv, Hproto. reflexivity.
Qed.

Lemma HTTPSMiddleware_redirect_falls_through_witness :
  middleware.HTTPSMiddleware sample.hello "prod" [] sample.over_http
  = [http.Redirect "https://jobs.example.com/jobs" 301; http.Write "hello"].
Proof.
  apply (HTTPSMiddleware_redirect_falls_through sample.hello "prod" [] sample.over_http);
    vm_compute; discriminate.
Defined.

(** The other requests of [HTTPSMiddleware]: in development, or with
    X-Forwarded-Proto https, the wrapped handler runs on the response as
    it was. *)
Lemma HTTPSMiddleware_passes_through
    (next : http.Handler) (env : string) (w : http.ResponseWriter) (r : http.Request) :
  env = "dev" \/ http.Header_Get (http.Header r) "X-Forwarded-Proto" = "https" ->
  middleware.HTTPSMiddleware next env w r = next w r.
Proof.
  intros H. unfold middleware.HTTPSMiddleware.
  destruct H as [H | H]; apply String.eqb_eq in H; rewrite H; simpl;
    [| rewrite andb_false_r]; reflexivity.
Qed.

Lemma prefix_app (p s : string) :
  String.prefix p s = true <-> exists b : string, s = p +:+ b.
Proof.
  revert p. induction s as [| c' s IH]; intros [| c p]; simpl.
  - split; [intros _; now exists "" | reflexivity].
  - split; [discriminate | intros (b & Hb); discriminate Hb].
  - split; [intros _; now exists (String c' s) | reflexivity].
  - destruct (Ascii.ascii_dec c c') as [<- | Hne].
    + rewrite IH. split; intros (b & Hb); exists b; [now rewrite Hb | now injection Hb].
    + split; [discriminate | intros (b & Hb); injection Hb; congruence].
Qed.

(** [strings_Contains] is the substring test. *)
Lemma strings_Contains_spec (s substr : string) :
  strings_Contains s substr = true <-> exists a b : string, s = a +:+ substr +:+ b.
Proof.
  induction s as [| c s IH].
  - change (strings_Contains "" substr) with (String.prefix substr "" || false).
    rewrite orb_false_r, prefix_app. split.
    + intros (b & Hb). now exists "", b.
    + intros (a & b & Hab). destruct a as [| ? ?]; [now exists b | discriminate Hab].
  - change (strings_Contains (String c s) substr)
      with (String.prefix substr (String c s) || strings_Contains s substr).
    rewrite orb_true_iff, prefix_app, IH. split.
    + intros [(b & Hb) | (a & b & Hab)].
      * now exists "", b.
      * exists (String c a), b. simpl. now rewrite Hab.
    + intros (a & b & Hab). destruct a as [| c' a]; simpl in Hab.
      * left. now exists b.
      * right. exists a, b. now injection Hab.
Qed.

Lemma Header_of_app (w w' : http.ResponseWriter) :
  http.Header_of (w ++ w')
  = fold_left
      (fun h c =>
         match c with
         | http.Header_Set key value => <[http.CanonicalMIMEHeaderKey key := [value]]> h
         | _ => h
         end)
      w' (http.Header_of w).
Proof. unfold http.Header_of. apply fold_left_app. Qed.

Lemma Status_app_headers (w : http.ResponseWriter) (kvs : list (string * string)) :
  http.Status (w ++ map (fun kv => http.Header_Set kv.1 kv.2) kvs) = http.Status w.
Proof.
  induction w as [| c w IH]; simpl.
  - induction kvs as [| kv kvs IHk]; [reflexivity | exact IHk].
  - destruct c; [exact IH | reflexivity ..].
Qed.

(** C8: outside development, [HeadersMiddleware] answers a request whose
    User-Agent contains "HeadlessChrome" with status 418 without invoking
    the wrapped handler, and on any other request sets the six security
    headers before the wrapped handler runs; in development it sets no
    header and filters no request. *)
Theorem HeadersMiddleware_spec
    (next : http.Handler) (env : string) (w : http.ResponseWriter) (r : http.Request) :
  let ua := http.Header_Get (http.Header r) "User-Agent" in
  (env <> "dev" -> (exists a b : string, ua = a +:+ "HeadlessChrome" +:+ b) ->
   middleware.HeadersMiddleware next env w r = w ++ [http.WriteHeader 418]
   /\ (http.Status w = None ->
       http.Status (middleware.HeadersMiddleware next env w r) = Some 418%Z))
  /\ (env <> "dev" -> ~ (exists a b : string, ua = a +:+ "HeadlessChrome" +:+ b) ->
      exists w' : http.ResponseWriter,
        middleware.HeadersMiddleware next env w r = next w' r
        /\ http.Status w' = http.Status w
        /\ Forall (fun kv => http.Header_Get (http.Header_of w') kv.1 = kv.2)
             [("Content-Security-Policy", "upgrade-insecure-requests");
              ("X-Frame-Options", "deny");
              ("X-XSS-Protection", "1; mode=block");
              ("X-Content-Type-Options", "nosniff");
              ("Strict-Transport-Security", "max-age=31536000; includeSubDomains");
              ("Referrer-Policy", "origin")])
  /\ (env = "dev" -> middleware.HeadersMiddleware next env w r = next w r).
Proof.
  intros ua. unfold middleware.HeadersMiddleware. fold ua.
  split; [| split].
  - intros Henv Hua. apply String.eqb_neq in Henv. apply strings_Contains_spec in Hua.
    rewrite Henv, Hua. simpl. split; [reflexivity |].
    intros Hfresh. now rewrite Status_app_fresh.
  - intros Henv Hua. apply String.eqb_neq in Henv.
    rewrite <- strings_Contains_spec in Hua. apply not_true_is_false in Hua.
    rewrite Henv, Hua. simpl. eexists. split; [reflexivity |]. split.
    + apply (Status_app_headers w
               [("Content-Security-Policy", "upgrade-insecure-requests");
                ("X-Frame-Options", "deny");
                ("X-XSS-Protection", "1; mode=block");
                ("X-Content-Type-Options", "nosniff");
                ("Strict-Transport-Security", "max-age=31536000; includeSubDomains");
                ("Referrer-Policy", "origin")]).
    + rewrite Header_of_app. unfold http.Header_Get.
      repeat match goal with
             | |- context [http.CanonicalMIMEHeaderKey ?k] =>
                 let k' := eval vm_compute in (http.CanonicalMIMEHeaderKey k) in
                 change (http.CanonicalMIMEHeaderKey k) with k'
             end.
      repeat constructor; simpl;
        repeat match goal with
               | |- context [http.CanonicalMIMEHeaderKey ?k] =>
                   let k' := eval vm_compute in (http.CanonicalMIMEHeaderKey k) in
                   change (http.CanonicalMIMEHeaderKey k) with k'
               end;
        repeat (rewrite lookup_insert_ne by discriminate);
        rewrite lookup_insert_eq; reflexivity.
  - intros ->. reflexivity.
Qed.

Lemma HeadersMiddleware_spec_witness :
  middleware.HeadersMiddleware sample.hello "prod" [] sample.from_headless
  = [http.WriteHeader 418]
  /\ (http.Status [] = None ->
      http.Status (middleware.HeadersMiddleware sample.hello "prod" [] sample.from_headless)
      = Some 418%Z).
Proof.
  apply (proj1 (HeadersMiddleware_spec sample.hello "prod" [] sample.from_headless)).
  - discriminate.
  - exists "Mozilla/5.0 (X11; Linux x86_64) ", "/119.0". reflexivity.
Defined.

(** C10: [IsSignedOn] returns true exactly when [GetUserFromJWT], on the
    same request, session store and key, returns claims that are not nil
    together with a nil error. *)
Theorem IsSignedOn_iff_GetUserFromJWT
    (jwt_parse : string -> list Byte.byte -> middleware.parsed * option error)
    (r : http.Request) (sessionStore : middleware.CookieStore) (jwtKey : list Byte.byte) :
  middleware.IsSignedOn jwt_parse r sessionStore jwtKey = Returns true
  <-> exists claims : middleware.UserJWT,
        middleware.GetUserFromJWT jwt_parse r sessionStore jwtKey
        = Returns (Some claims, None).
Proof.
  unfold middleware.IsSignedOn, middleware.GetUserFromJWT, middleware.ParseWithClaims.
  destruct (middleware.Get sessionStore r "____gc") as [sess [e |]].
  { split; [discriminate | intros (c & Hc); discriminate Hc]. }
  destruct (middleware.assert_string _) as [tk [|]]; simpl.
  2: { split; [discriminate | intros (c & Hc); discriminate Hc]. }
  destruct (jwt_parse tk jwtKey) as [[| | claims [|]] err]; simpl.
  - split; [discriminate | intros (c & Hc); discriminate Hc].
  - split; [discriminate | intros (c & Hc); discriminate Hc].
  - split; [intros _; now exists claims | reflexivity].
  - split; [discriminate | intros (c & Hc); discriminate Hc].
Qed.

(** ** User repository *)

Lemma filter_find {A : Type} (P : A -> bool) (l : list A) :
  match List.find P l with
  | Some x => exists rest : list A, List.filter P l = x :: rest
  | None => List.filter P l = []
  end.
Proof.
  induction l as [| a l IH]; simpl; [reflexivity |].
  destruct (P a); [now exists (List.filter P l) | exact IH].
Qed.

(** A call that the driver does not fail runs the statement. *)
Lemma QueryRow_runs (s : user.statement) (db : user.DB) :
  user.next_fault db = None ->
  user.QueryRow s db
  = ({| user.tables := fst (user.run s (user.tables db) (user.NOW db));
        user.NOW := user.NOW db;
        user.faults := tail (user.faults db);
        user.executed := user.executed db ++ [s] |},
     match snd (user.run s (user.tables db) (user.NOW db)) with
     | row :: _ => inl row
     | [] => inr sql_ErrNoRows
     end).
Proof.
  intros Hf. unfold user.QueryRow, user.send. rewrite Hf.
  destruct (user.run s (user.tables db) (user.NOW db)) as [tb rows]. reflexivity.
Qed.

(** A call that the driver fails leaves the tables alone. *)
Lemma QueryRow_fails (s : user.statement) (db : user.DB) (err : error) :
  user.next_fault db = Some err ->
  user.QueryRow s db
  = ({| user.tables := user.tables db; user.NOW := user.NOW db;
        user.faults := tail (user.faults db);
        user.executed := user.executed db ++ [s] |}, inr err).
Proof. intros Hf. unfold user.QueryRow, user.send. rewrite Hf. reflexivity. Qed.

(** [GetOrCreateUserFromToken] never reads the table of sign-on tokens:
    its result is the same whatever that table holds. *)
Lemma GetOrCreateUserFromToken_reads_users_only
    (env : user.Env) (db : user.DB) (token : string) (saved : list user.token_row) :
  snd (user.GetOrCreateUserFromToken env
         {| user.tables :=
              {| user.users := user.users (user.tables db);
                 user.user_sign_on_token := saved;
                 user.recruiter_profile := user.recruiter_profile (user.tables db);
                 user.developer_profile := user.developer_profile (user.tables db) |};
            user.NOW := user.NOW db; user.faults := user.faults db;
            user.executed := user.executed db |} token)
  = snd (user.GetOrCreateUserFromToken env db token).
Proof.
  unfold user.GetOrCreateUserFromToken, user.QueryRow, user.Exec, user.send, user.next_fault.
  simpl. destruct (user.faults db) as [| [e |] fs]; simpl; try reflexivity.
  - destruct (List.filter _ (user.users (user.tables db))) as [| u us]; simpl;
      [reflexivity |].
    destruct (user.u_id u), (user.u_email u), (user.u_created_at u), (user.u_user_type u),
      (user.u_email_verified u), (user.u_access_token u), (user.u_expiration_time u);
      simpl; try reflexivity;
      destruct (user.ksuid_NewRandom env); reflexivity.
  - destruct (List.filter _ (user.users (user.tables db))) as [| u us]; simpl;
      [reflexivity |].
    destruct (user.u_id u), (user.u_email u), (user.u_created_at u), (user.u_user_type u),
      (user.u_email_verified u), (user.u_access_token u), (user.u_expiration_time u);
      simpl; try reflexivity;
      destruct (user.ksuid_NewRandom env); try reflexivity;
      destruct fs as [| [e' |] fs']; reflexivity.
Qed.

(** C1 (the code at the inputs where the claim fails): a sign-on token
    saved with [SaveTokenSignOn] is not found by
    [GetOrCreateUserFromToken], which looks the token up in users and
    returns [sql.ErrNoRows] without creating a user; and where the lookup
    finds a users row without email, the user created gets the access
    token of that row as its Email. *)
Theorem GetOrCreateUserFromToken_misses_sign_on_token :
  user.user_sign_on_token (user.tables sample.saved_db)
  = [{| user.t_token := Some "tok-1"; user.t_email := Some "dev@example.com";
        user.t_user_type := Some "jobseeker"; user.t_created_at := Some sample.today |}]
  /\ snd (user.GetOrCreateUserFromToken sample.env0 sample.saved_db "tok-1")
     = (user.User_zero, false, Some sql_ErrNoRows)
  /\ user.users (user.tables
                   (fst (user.GetOrCreateUserFromToken sample.env0 sample.saved_db "tok-1")))
     = []
  /\ (exists u : user.User,
        snd (user.GetOrCreateUserFromToken sample.env0 sample.pending_db "tok-2")
        = (u, false, None)
        /\ user.Email u = "ya29.secret").
Proof.
  split; [reflexivity |]. split; [reflexivity |]. split; [reflexivity |].
  eexists. split; reflexivity.
Qed.

(** C2 (as the code has it): [GetUser] turns a lookup without rows into a
    nil user with a nil error and returns any other error of the lookup
    unchanged; [GetOrCreateUserFromToken] returns every error of its
    lookup, [sql.ErrNoRows] included, unchanged with a zero User and
    existed = false; [GetUserTypeByEmail] returns an error of the primary
    lookup other than no-rows unchanged, and when the primary lookup finds
    no rows and neither profile lookup succeeds it returns the error of
    the developer_profile lookup ([sql.ErrNoRows] when that finds no
    rows) unchanged, with an empty type. *)
Theorem read_operations_errors (env : user.Env) (db : user.DB) (arg : string) :
  (forall err : error,
     snd (user.QueryRow (user.select_user_by_id arg) db) = inr err ->
     snd (user.GetUser db arg)
     = (None, if bool_decide (err = sql_ErrNoRows) then None else Some err))
  /\ (forall err : error,
        snd (user.QueryRow (user.select_user_by_token arg) db) = inr err ->
        snd (user.GetOrCreateUserFromToken env db arg) = (user.User_zero, false, Some err))
  /\ (forall err : error,
        snd (user.QueryRow (user.select_user_type_by_email arg) db) = inr err ->
        err <> sql_ErrNoRows ->
        snd (user.GetUserTypeByEmail db arg) = ("", Some err))
  /\ (forall e2 e3 : error,
        let r1 := user.QueryRow (user.select_user_type_by_email arg) db in
        let r2 := user.QueryRow (user.select_recruiter_by_email arg) (fst r1) in
        let r3 := user.QueryRow (user.select_developer_by_email arg) (fst r2) in
        snd r1 = inr sql_ErrNoRows -> snd r2 = inr e2 -> snd r3 = inr e3 ->
        snd (user.GetUserTypeByEmail db arg) = ("", Some e3)).
Proof.
  repeat split.
  - intros err. unfold user.GetUser.
    destruct (user.QueryRow _ db) as [db1 row]. simpl. intros ->. simpl.
    case_bool_decide; reflexivity.
  - intros err. unfold user.GetOrCreateUserFromToken.
    destruct (user.QueryRow _ db) as [db1 row]. simpl. intros ->. reflexivity.
  - intros err. unfold user.GetUserTypeByEmail.
    destruct (user.QueryRow _ db) as [db1 row]. simpl. intros -> Hne. simpl.
    case_bool_decide; [contradiction | reflexivity].
  - intros e2 e3. unfold user.GetUserTypeByEmail.
    destruct (user.QueryRow _ db) as [db1 row1]. simpl. intros ->. simpl.
    destruct (user.QueryRow _ db1) as [db2 row2]. simpl. intros ->. simpl.
    destruct (user.QueryRow _ db2) as [db3 row3]. simpl. intros ->. reflexivity.
Qed.

Lemma read_operations_errors_witness :
  snd (user.GetUser sample.empty_db "u-1") = (None, None)
  /\ snd (user.GetUser sample.failing_db "u-1")
     = (None, Some (lib_error "driver: bad connection"))
  /\ snd (user.GetOrCreateUserFromToken sample.env0 sample.failing_db "tok-1")
     = (user.User_zero, false, Some (lib_error "driver: bad connection"))
  /\ snd (user.GetUserTypeByEmail sample.failing_db "dev@example.com")
     = ("", Some (lib_error "driver: bad connection")).
Proof.
  split; [| split; [| split]].
  - exact (proj1 (read_operations_errors sample.env0 sample.empty_db "u-1")
             sql_ErrNoRows eq_refl).
  - exact (proj1 (read_operations_errors sample.env0 sample.failing_db "u-1")
             (lib_error "driver: bad connection") eq_refl).
  - exact (proj1 (proj2 (read_operations_errors sample.env0 sample.failing_db "tok-1"))
             (lib_error "driver: bad connection") eq_refl).
  - apply (proj1 (proj2 (proj2
             (read_operations_errors sample.env0 sample.failing_db "dev@example.com")))
             (lib_error "driver: bad connection") eq_refl).
    discriminate.
Defined.

(** C2 as stated does not hold: without rows [GetOrCreateUserFromToken]
    and [GetUserTypeByEmail] return [sql.ErrNoRows], not a nil error; and
    [GetUserTypeByEmail] does not return the error of its lookup in
    recruiter_profile. *)
Lemma no_rows_is_an_error :
  snd (user.GetOrCreateUserFromToken sample.env0 sample.empty_db "tok-1")
  = (user.User_zero, false, Some sql_ErrNoRows)
  /\ snd (user.GetUserTypeByEmail sample.empty_db "nobody@example.com")
     = ("", Some sql_ErrNoRows)
  /\ Some sql_ErrNoRows <> @None error
  /\ snd (user.QueryRow (user.select_recruiter_by_email "dev@example.com")
            (fst (user.QueryRow (user.select_user_type_by_email "dev@example.com")
                    sample.flaky_db)))
     = inr (lib_error "driver: bad connection")
  /\ snd (user.GetUserTypeByEmail sample.flaky_db "dev@example.com") = ("developer", None).
Proof.
  split; [reflexivity |]. split; [reflexivity |]. split; [discriminate |].
  split; reflexivity.
Qed.

(** C6: [GetUserTypeByEmail] first looks the email up in users; a hit
    there returns the user_type of the row and sends no other statement.
    Only when users has no row for the email does it look, in this order,
    in recruiter_profile (a hit returns "recruiter") and then in
    developer_profile (a hit returns "developer"). *)
Theorem GetUserTypeByEmail_fallback (db : user.DB) (email : string) :
  user.faults db = [] ->
  let q1 := user.select_user_type_by_email email in
  let q2 := user.select_recruiter_by_email email in
  let q3 := user.select_developer_by_email email in
  let has_email := fun p => user.sql_eq (user.p_email p) email in
  let res := user.GetUserTypeByEmail db email in
  user.tables (fst res) = user.tables db
  /\ match List.find (fun u => user.sql_eq (user.u_email u) email)
             (user.users (user.tables db)) with
     | Some u =>
         user.executed (fst res) = user.executed db ++ [q1]
         /\ snd res = match user.u_user_type u with
                      | Some user_type => (user_type, None)
                      | None => ("", Some user.scan_error)
                      end
     | None =>
         match List.find has_email (user.recruiter_profile (user.tables db)) with
         | Some _ =>
             user.executed (fst res) = user.executed db ++ [q1; q2]
             /\ snd res = ("recruiter", None)
         | None =>
             user.executed (fst res) = user.executed db ++ [q1; q2; q3]
             /\ snd res = match List.find has_email
                                  (user.developer_profile (user.tables db)) with
                          | Some _ => ("developer", None)
                          | None => ("", Some sql_ErrNoRows)
                          end
         end
     end.
Proof.
  intros Hf q1 q2 q3 has_email res. subst res.
  unfold user.GetUserTypeByEmail.
  rewrite QueryRow_runs by (unfold user.next_fault; now rewrite Hf).
  rewrite Hf. simpl.
  pose proof (filter_find (fun u => user.sql_eq (user.u_email u) email)
                (user.users (user.tables db))) as Hu.
  destruct (List.find _ (user.users (user.tables db))) as [u |].
  { destruct Hu as (rest & ->). simpl.
    destruct (user.u_user_type u); simpl; repeat split; reflexivity. }
  rewrite Hu. simpl.
  pose proof (filter_find has_email (user.recruiter_profile (user.tables db))) as Hr.
  destruct (List.find has_email (user.recruiter_profile (user.tables db))) as [p |].
  { destruct Hr as (rest & Hr). fold has_email. rewrite Hr. simpl.
    rewrite <- app_assoc. repeat split; reflexivity. }
  fold has_email. rewrite Hr. simpl.
  pose proof (filter_find has_email (user.developer_profile (user.tables db))) as Hd.
  destruct (List.find has_email (user.developer_profile (user.tables db))) as [p |].
  - destruct Hd as (rest & Hd). fold has_email. rewrite Hd. simpl.
    rewrite <- !app_assoc. repeat split; reflexivity.
  - fold has_email. rewrite Hd. simpl.
    rewrite <- !app_assoc. repeat split; reflexivity.
Qed.

Lemma GetUserTypeByEmail_fallback_witness :
  user.executed (fst (user.GetUserTypeByEmail sample.recruiter_db "hr@example.com"))
  = [user.select_user_type_by_email "hr@example.com";
     user.select_recruiter_by_email "hr@example.com"]
  /\ snd (user.GetUserTypeByEmail sample.recruiter_db "hr@example.com")
     = ("recruiter", None).
Proof.
  exact (proj2 (GetUserTypeByEmail_fallback sample.recruiter_db "hr@example.com" eq_refl)).
Defined.

(** C7: [DeleteExpiredUserSignOnTokens], when its statement runs, removes
    exactly the sign-on tokens created more than seven days before the
    current time; the tokens created within the last seven days stay, in
    their order, and the rows of users, recruiter_profile and
    developer_profile are unchanged. *)
Theorem DeleteExpiredUserSignOnTokens_frame (db : user.DB) :
  user.next_fault db = None ->
  let db' := fst (user.DeleteExpiredUserSignOnTokens db) in
  let now := user.NOW db in
  snd (user.DeleteExpiredUserSignOnTokens db) = None
  /\ user.users (user.tables db') = user.users (user.tables db)
  /\ user.recruiter_profile (user.tables db') = user.recruiter_profile (user.tables db)
  /\ user.developer_profile (user.tables db') = user.developer_profile (user.tables db)
  /\ user.user_sign_on_token (user.tables db')
     = List.filter (fun row => negb (user.expired now row))
         (user.user_sign_on_token (user.tables db))
  /\ (forall row : user.token_row,
        In row (user.user_sign_on_token (user.tables db'))
        <-> In row (user.user_sign_on_token (user.tables db))
            /\ ~ (exists created_at : Z,
                    user.t_created_at row = Some created_at
                    /\ (now - created_at > 7 * 24 * 60 * 60 * 1000000)%Z)).
Proof.
  intros Hf db' now. subst db'.
  unfold user.DeleteExpiredUserSignOnTokens, user.Exec, user.send. rewrite Hf. simpl.
  do 5 (split; [reflexivity |]).
  intros row. rewrite filter_In. unfold user.expired, user.seven_days.
  split; intros [Hin Hkeep]; (split; [exact Hin |]).
  - intros (created_at & Hc & Hold). rewrite Hc in Hkeep.
    apply negb_true_iff, Z.ltb_ge in Hkeep. lia.
  - destruct (user.t_created_at row) as [created_at |]; [| reflexivity].
    apply negb_true_iff, Z.ltb_ge.
    destruct (Z_lt_le_dec created_at (now - 7 * 24 * 60 * 60 * 1000000)) as [Hlt | Hle];
      [| exact Hle].
    exfalso. apply Hkeep. exists created_at. split; [reflexivity | lia].
Qed.

Lemma DeleteExpiredUserSignOnTokens_frame_witness :
  user.user_sign_on_token
    (user.tables (fst (user.DeleteExpiredUserSignOnTokens sample.tokens_db)))
  = [sample.sign_on "edge" (sample.today - 7 * sample.day);
     sample.sign_on "new" (sample.today - sample.day)]
  /\ user.users (user.tables (fst (user.DeleteExpiredUserSignOnTokens sample.tokens_db)))
     = [sample.pending].
Proof.
  destruct (DeleteExpiredUserSignOnTokens_frame sample.tokens_db eq_refl)
    as (_ & Husers & _ & _ & Htokens & _).
  split; [exact Htokens | exact Husers].
Defined.

(** When the driver fails the statement, no table changes. *)
Lemma DeleteExpiredUserSignOnTokens_failed (db : user.DB) (err : error) :
  user.next_fault db = Some err ->
  snd (user.DeleteExpiredUserSignOnTokens db) = Some err
  /\ user.tables (fst (user.DeleteExpiredUserSignOnTokens db)) = user.tables db.
Proof.
  intros Hf. unfold user.DeleteExpiredUserSignOnTokens, user.Exec, user.send.
  rewrite Hf. split; reflexivity.
Qed.

(** * Further properties *)

(** ** The function map of the templates *)

(** X1: "add" and "sub" undo each other on all 64-bit integers, also
    where the sum or the difference wraps around, and their results are
    64-bit integers again. *)
Theorem add_sub_round_trip (a b : Z) :
  template.is_int a -> template.is_int b ->
  template.is_int (template.add a b)
  /\ template.sub (template.add a b) b = a
  /\ template.add (template.sub a b) b = a.
Proof.
  unfold template.is_int, template.add, template.sub, template.wrap.
  change (2 ^ 63)%Z with 9223372036854775808%Z.
  change (2 ^ 64)%Z with 18446744073709551616%Z.
  intros Ha Hb. repeat split; Z.div_mod_to_equations; lia.
Qed.

Lemma add_sub_round_trip_witness :
  template.add 9223372036854775807 1 = (-9223372036854775808)%Z
  /\ template.sub (template.add 9223372036854775807 1) 1 = 9223372036854775807%Z.
Proof.
  destruct (add_sub_round_trip 9223372036854775807 1) as (_ & Hsub & _).
  - unfold template.is_int. split; [discriminate | reflexivity].
  - unfold template.is_int. split; [discriminate | reflexivity].
  - split; [reflexivity | exact Hsub].
Defined.

Lemma append_empty_r (s : string) : s +:+ "" = s.
Proof.
  induction s as [| c s IH]; [reflexivity |].
  change (String c (s +:+ "") = String c s). now rewrite IH.
Qed.

Lemma append_assoc (a b c : string) : (a +:+ b) +:+ c = a +:+ b +:+ c.
Proof.
  induction a as [| x a IH]; [reflexivity |].
  change (String x ((a +:+ b) +:+ c) = String x (a +:+ b +:+ c)). now rewrite IH.
Qed.

Lemma prefix_empty (s : string) : String.prefix "" s = true.
Proof. now destruct s. Qed.

Lemma prefix_one (c c' : ascii) (s : string) :
  String.prefix (String c "") (String c' s) = bool_decide (c = c').
Proof.
  simpl. destruct (Ascii.ascii_dec c c') as [-> | Hne].
  - rewrite prefix_empty. now rewrite bool_decide_eq_true_2.
  - now rewrite bool_decide_eq_false_2.
Qed.

(** The first piece of a split on spaces is the text before the first
    space. *)
Lemma split_from_first (s cur : string) :
  exists (w : string) (pieces : list string),
    split_from " " 0 cur s = (cur +:+ w) :: pieces
    /\ strings_Contains w " " = false
    /\ (s = w \/ exists rest : string, s = w +:+ " " +:+ rest).
Proof.
  revert cur. induction s as [| c s IH]; intros cur.
  - exists "", []. rewrite append_empty_r. repeat split. now left.
  - change (split_from " " 0 cur (String c s))
      with (if String.prefix " " (String c s)
            then cur :: split_from " " 0 "" s
            else split_from " " 0 (cur +:+ String c "") s).
    rewrite prefix_one. case_bool_decide as Hc.
    + subst c. exists "", (split_from " " 0 "" s). rewrite append_empty_r.
      repeat split. right. now exists s.
    + destruct (IH (cur +:+ String c "")) as (w & pieces & Hsplit & Hw & Hs).
      exists (String c w), pieces. split; [| split].
      * rewrite Hsplit, append_assoc. reflexivity.
      * change (strings_Contains (String c w) " ")
          with (String.prefix " " (String c w) || strings_Contains w " ").
        rewrite prefix_one, bool_decide_eq_false_2 by exact Hc. exact Hw.
      * destruct Hs as [-> | (rest & ->)]; [now left | right; now exists rest].
Qed.

(** X2: "truncateName" never fails on its index: on every string it
    returns the text before the first space, which is the whole string
    when there is no space. *)
Theorem truncateName_first_word (s : string) :
  exists w : string,
    template.truncateName s = Returns w
    /\ strings_Contains w " " = false
    /\ (s = w \/ exists rest : string, s = w +:+ " " +:+ rest).
Proof.
  destruct (split_from_first s "") as (w & pieces & Hsplit & Hw & Hs).
  exists w. split; [| split; assumption].
  unfold template.truncateName, strings_Split. rewrite Hsplit. reflexivity.
Qed.

Lemma replace_dash_cons (c : ascii) (s : string) :
  replace_from "-" " " 0 (String c s)
  = String (if bool_decide ("-"%char = c) then " "%char else c) (replace_from "-" " " 0 s).
Proof.
  change (replace_from "-" " " 0 (String c s))
    with (if String.prefix "-" (String c s)
          then " " +:+ replace_from "-" " " 0 s
          else String c (replace_from "-" " " 0 s)).
  rewrite prefix_one. now case_bool_decide.
Qed.

(** X3: "replaceDash" keeps the length of the string and changes it byte
    by byte: every dash becomes a space, every other byte stays, so no
    dash is left. *)
Theorem replaceDash_bytewise (s : string) :
  String.length (template.replaceDash s) = String.length s
  /\ (forall n : nat,
        String.get n (template.replaceDash s)
        = (fun c => if bool_decide ("-"%char = c) then " "%char else c) <$> String.get n s)
  /\ strings_Contains (template.replaceDash s) "-" = false.
Proof.
  unfold template.replaceDash, strings_ReplaceAll.
  induction s as [| c s (IHlen & IHget & IHdash)].
  - repeat split.
  - rewrite replace_dash_cons. split; [| split].
    + simpl. now rewrite IHlen.
    + intros [| n]; [reflexivity | apply IHget].
    + match goal with
      | |- strings_Contains (String ?c' ?s') "-" = false =>
          change (strings_Contains (String c' s') "-")
            with (String.prefix "-" (String c' s') || strings_Contains s' "-")
      end.
      rewrite prefix_one, IHdash, orb_false_r.
      apply bool_decide_eq_false_2. case_bool_decide; [discriminate | assumption].
Qed.

(** X4: "currencysymbol" never returns an empty symbol, and every
    currency that is not one of the twenty codes of its table, spelled as
    there, gets the dollar sign. *)
Theorem currencysymbol_default (currency : string) :
  template.currencysymbol currency <> ""
  /\ (currency ∉ ["USD"; "EUR"; "JPY"; "GBP"; "AUD"; "CAD"; "CHF"; "CNY"; "HKD"; "NZD";
                   "SEK"; "KRW"; "SGD"; "NOK"; "MXN"; "INR"; "RUB"; "ZAR"; "TRY"; "BRL"] ->
      template.currencysymbol currency = "$").
Proof.
  unfold template.currencysymbol.
  destruct (template.symbols !! currency) as [symbol |] eqn:Hlookup.
  - apply elem_of_list_to_map_2 in Hlookup.
    split.
    + repeat (apply elem_of_cons in Hlookup as [[= -> ->] | Hlookup]; [discriminate |]).
      now apply elem_of_nil in Hlookup.
    + intros Hnot. exfalso. apply Hnot.
      repeat (apply elem_of_cons in Hlookup as [[= -> ->] | Hlookup];
              [repeat first [apply list_elem_of_here | apply list_elem_of_further] |]).
      now apply elem_of_nil in Hlookup.
  - split; [discriminate | reflexivity].
Qed.

Lemma currencysymbol_default_witness :
  template.currencysymbol "usd" = "$".
Proof.
  apply (proj2 (currencysymbol_default "usd")).
  intros Hin. repeat (apply elem_of_cons in Hin as [Heq | Hin]; [discriminate Heq |]).
  now apply elem_of_nil in Hin.
Defined.

(** ** The template value and its watcher *)

(** X5: [NewTemplate] panics exactly when the template directory does
    not parse or, in development mode, when the watcher cannot be created
    or cannot watch the directory; otherwise it returns the parsed set,
    with the watching goroutine started exactly in development mode. *)
Theorem NewTemplate_startup
    (disk : template.Disk) (newWatcher add : option error) (env : string) :
  ((exists reason : string, template.NewTemplate disk newWatcher add env = Panics reason)
   <-> (exists err : error, disk "static/views/*.html" = inr err)
       \/ (env = "dev" /\ (newWatcher <> None \/ add <> None)))
  /\ (forall (tp : template.Template) (watching : bool),
        template.NewTemplate disk newWatcher add env = Returns (tp, watching) ->
        disk "static/views/*.html" = inl (template.templates tp)
        /\ template.watcher tp = watching
        /\ (watching = true <-> env = "dev")).
Proof.
  unfold template.NewTemplate, template.createTemplateFromGlob.
  destruct (disk "static/views/*.html") as [ts | err].
  2: { split.
       - split; [intros _; left; now exists err | intros _; now eexists].
       - intros tp watching [=]. }
  destruct (String.eqb_spec env "dev") as [-> | Henv]; simpl.
  - destruct newWatcher as [e |]; [| destruct add as [e |]].
    + split; [| intros tp watching [=]].
      split; [intros _; right; split; [reflexivity | now left] | intros _; now eexists].
    + split; [| intros tp watching [=]].
      split; [intros _; right; split; [reflexivity | now right] | intros _; now eexists].
    + split.
      * split; [intros (reason & [=]) |].
        intros [(err & [=]) | (_ & [H | H])]; now contradiction H.
      * intros tp watching [= <- <-]. repeat split; reflexivity.
  - split.
    + split; [intros (reason & [=]) |].
      intros [(err & [=]) | (Hdev & _)]; contradiction.
    + intros tp watching [= <- <-]. repeat split; [discriminate | contradiction].
Qed.

(** X6: only write events touch the template set: over any run of
    events that are not writes, watcher errors and closed channels, the
    goroutine does not panic and the active template set stays the
    same. *)
Theorem watch_keeps_templates
    (ms : list (template.Disk * template.received)) (p : template.Program) :
  Forall (fun dm => match snd dm with
                    | template.from_Events (Some event) =>
                        template.Has event template.fsnotify_Write = false
                    | _ => True
                    end) ms ->
  template.templates (template.t (fst (template.watch ms p)))
  = template.templates (template.t p)
  /\ (forall reason : string, snd (template.watch ms p) <> template.panicked reason).
Proof.
  intros Hquiet. revert p. induction Hquiet as [| [disk m] ms Hm _ IH]; intros p.
  - split; [reflexivity | discriminate].
  - simpl in Hm. simpl. destruct m as [[event |] | [err |]]; simpl.
    + rewrite Hm. apply IH.
    + split; [reflexivity | discriminate].
    + destruct (IH {| template.t := template.t p;
                      template.log :=
                        template.log p ++ ["error from file watcher: " +:+ Error err] |})
        as [Hts Hpanic].
      split; [exact Hts | exact Hpanic].
    + split; [reflexivity | discriminate].
Qed.

Lemma watch_keeps_templates_witness :
  template.templates
    (template.t
       (fst (template.watch
               [(sample.broken,
                 template.from_Events
                   (Some {| template.Name := "static/views/index.html"; template.Op := 16 |}));
                (sample.broken, template.from_Errors (Some (lib_error "too many events")))]
               sample.running)))
  = sample.views.
Proof.
  apply (watch_keeps_templates
           [(sample.broken,
             template.from_Events
               (Some {| template.Name := "static/views/index.html"; template.Op := 16 |}));
            (sample.broken, template.from_Errors (Some (lib_error "too many events")))]
           sample.running).
  repeat constructor.
Defined.

(** X7: the goroutine only ever appends to the log, at most one line for
    each thing it receives, and never changes whether the template value
    has a watcher. *)
Theorem watch_log_grows
    (ms : list (template.Disk * template.received)) (p : template.Program) :
  exists lines : list string,
    template.log (fst (template.watch ms p)) = template.log p ++ lines
    /\ (length lines <= length ms)%nat
    /\ template.watcher (template.t (fst (template.watch ms p)))
       = template.watcher (template.t p).
Proof.
  revert p. induction ms as [| [disk m] ms IH]; intros p.
  - exists []. rewrite app_nil_r. repeat split. reflexivity.
  - simpl.
    assert (Hstep : forall p1 line,
              template.log p1 = template.log p ++ [line] ->
              template.watcher (template.t p1) = template.watcher (template.t p) ->
              exists lines : list string,
                template.log (fst (template.watch ms p1)) = template.log p ++ lines
                /\ (length lines <= S (length ms))%nat
                /\ template.watcher (template.t (fst (template.watch ms p1)))
                   = template.watcher (template.t p)).
    { intros p1 line Hlog Hw. destruct (IH p1) as (lines & Hl & Hn & Hw').
      exists (line :: lines). rewrite Hl, Hlog, <- app_assoc.
      repeat split; [simpl; lia | congruence]. }
    assert (Hstay : exists lines : list string,
              template.log p = template.log p ++ lines
              /\ (length lines <= S (length ms))%nat
              /\ template.watcher (template.t p) = template.watcher (template.t p)).
    { exists []. rewrite app_nil_r. repeat split. simpl. lia. }
    destruct m as [[event |] | [err |]]; simpl; try exact Hstay.
    + destruct (template.Has event template.fsnotify_Write).
      * unfold template.createTemplateFromGlob.
        destruct (disk "static/views/*.html") as [ts | err]; simpl.
        -- eapply Hstep; reflexivity.
        -- eexists [_]. repeat split. simpl. lia.
      * destruct (IH p) as (lines & Hl & Hn & Hw). exists lines.
        repeat split; [exact Hl | lia | exact Hw].
    + eapply Hstep; reflexivity.
Qed.



(** ** The other middleware *)

(** X9: [MachineAuthenticatedMiddleware] compares the configured token
    with the first value of the request's X-Machine-Token header, read as
    empty when the header is missing: an equal token runs the wrapped
    handler on the untouched response, any other answers 401 without it.
    So with an empty configured token a request without the header is let
    through. *)
Theorem MachineAuthenticatedMiddleware_token
    (machineToken : string) (next : http.Handler) (w : http.ResponseWriter)
    (r : http.Request) :
  let sent := match http.Header r !! "X-Machine-Token" with
              | Some (v :: _) => v
              | _ => ""
              end in
  (sent = machineToken ->
   middleware.MachineAuthenticatedMiddleware machineToken next w r = next w r)
  /\ (sent <> machineToken ->
      middleware.MachineAuthenticatedMiddleware machineToken next w r
      = w ++ [http.WriteHeader 401])
  /\ (http.Header r !! "X-Machine-Token" = None ->
      middleware.MachineAuthenticatedMiddleware "" next w r = next w r).
Proof.
  intros sent. unfold middleware.MachineAuthenticatedMiddleware, http.Header_Get.
  change (http.CanonicalMIMEHeaderKey "x-machine-token") with "X-Machine-Token".
  fold sent. split; [| split].
  - intros ->. now rewrite String.eqb_refl.
  - intros Hne. apply String.eqb_neq in Hne. now rewrite Hne.
  - intros Hmissing. subst sent. now rewrite Hmissing.
Qed.

Lemma MachineAuthenticatedMiddleware_token_witness :
  middleware.MachineAuthenticatedMiddleware "" sample.hello [] sample.over_http
  = [http.Write "hello"].
Proof.
  apply (proj2 (proj2 (MachineAuthenticatedMiddleware_token "" sample.hello []
                         sample.over_http))).
  reflexivity.
Defined.

(** X10: [GetUserFromJWT] returns claims or an error, never both and
    never neither; and it panics exactly when the session holds a jwt
    string in which jwt-go finds no token. *)
Theorem GetUserFromJWT_claims_xor_error
    (jwt_parse : string -> list Byte.byte -> middleware.parsed * option error)
    (r : http.Request) (sessionStore : middleware.CookieStore) (jwtKey : list Byte.byte) :
  (forall (claims : option middleware.UserJWT) (err : option error),
     middleware.GetUserFromJWT jwt_parse r sessionStore jwtKey = Returns (claims, err) ->
     (claims = None <-> err <> None))
  /\ ((exists reason : string,
         middleware.GetUserFromJWT jwt_parse r sessionStore jwtKey = Panics reason)
      <-> exists (sess : middleware.Session) (tk : string),
            middleware.Get sessionStore r "____gc" = (sess, None)
            /\ middleware.Values sess !! "jwt" = Some (middleware.any_string tk)
            /\ fst (jwt_parse tk jwtKey) = middleware.no_token).
Proof.
  unfold middleware.GetUserFromJWT, middleware.ParseWithClaims.
  destruct (middleware.Get sessionStore r "____gc") as [sess [e |]].
  { split.
    - intros claims err [= <- <-]. split; [discriminate | reflexivity].
    - split; [intros (reason & [=]) | intros (s' & tk & [=] & _)]. }
  destruct (middleware.Values sess !! "jwt") as [[tk | n | b] |] eqn:Hjwt; simpl;
    try (split;
         [ intros claims err [= <- <-]; split; [discriminate | reflexivity]
         | split; [intros (reason & [=]) | intros (s' & tk' & [= <-] & Hv & _)];
           rewrite Hjwt in Hv; discriminate Hv ]).
  destruct (jwt_parse tk jwtKey) as [[| | claims' [|]] perr] eqn:Hparse; simpl.
  - split; [intros claims err [=] |].
    split; [intros _; exists sess, tk; now rewrite Hparse | intros _; now eexists].
  - split; [intros claims err [= <- <-]; split; [discriminate | reflexivity] |].
    split; [intros (reason & [=]) |].
    intros (s' & tk' & [= <-] & Hv & Hno). rewrite Hjwt in Hv.
    injection Hv as <-. rewrite Hparse in Hno. discriminate Hno.
  - split; [intros claims err [= <- <-]; split; [discriminate | intros H; now contradiction H] |].
    split; [intros (reason & [=]) |].
    intros (s' & tk' & [= <-] & Hv & Hno). rewrite Hjwt in Hv.
    injection Hv as <-. rewrite Hparse in Hno. discriminate Hno.
  - split; [intros claims err [= <- <-]; split; [discriminate | reflexivity] |].
    split; [intros (reason & [=]) |].
    intros (s' & tk' & [= <-] & Hv & Hno). rewrite Hjwt in Hv.
    injection Hv as <-. rewrite Hparse in Hno. discriminate Hno.
Qed.

(** X11: [AdminAuthenticatedMiddleware] decides as [GetUserFromJWT] does:
    it runs the wrapped handler, on the untouched response, exactly on
    the claims of an administrator that [GetUserFromJWT] returns; on an
    error of [GetUserFromJWT] or on claims of another user it answers with
    the /auth redirect (status 401) without the handler; and it panics
    where [GetUserFromJWT] panics. *)
Theorem AdminAuthenticatedMiddleware_by_claims
    (jwt_parse : string -> list Byte.byte -> middleware.parsed * option error)
    (sessionStore : middleware.CookieStore) (jwtKey : list Byte.byte)
    (next : http.Handler) (w : http.ResponseWriter) (r : http.Request) :
  middleware.AdminAuthenticatedMiddleware jwt_parse sessionStore jwtKey next w r
  = match middleware.GetUserFromJWT jwt_parse r sessionStore jwtKey with
    | Panics reason => Panics reason
    | Returns (Some claims, None) =>
        if middleware.IsAdmin claims then Returns (next w r)
        else Returns (w ++ [http.Redirect "/auth" 401])
    | Returns _ => Returns (w ++ [http.Redirect "/auth" 401])
    end.
Proof.
  unfold middleware.AdminAuthenticatedMiddleware, middleware.GetUserFromJWT,
    middleware.ParseWithClaims.
  destruct (middleware.Get sessionStore r "____gc") as [sess [e |]]; [reflexivity |].
  destruct (middleware.assert_string _) as [tk [|]]; simpl; [| reflexivity].
  destruct (jwt_parse tk jwtKey) as [[| | claims [|]] perr]; simpl; try reflexivity.
  now destruct (middleware.IsAdmin claims).
Qed.

(** [authenticateFromCookie] succeeds only with the token the identity
    provider returned for the jwt string of the session. *)
Lemma authenticateFromCookie_success
    (store : middleware.CookieStore) (client : middleware.auth_Client) (r : http.Request)
    (tk : option http.auth_Token) :
  middleware.authenticateFromCookie store client r = (tk, None) ->
  exists (sess : middleware.Session) (jwt : string),
    middleware.Get store r "____gc" = (sess, None)
    /\ middleware.Values sess !! "jwt" = Some (middleware.any_string jwt)
    /\ middleware.VerifyIDToken client jwt = (tk, None).
Proof.
  unfold middleware.authenticateFromCookie.
  destruct (middleware.Get store r "____gc") as [sess [e |]] eqn:Hget; [discriminate |].
  destruct (middleware.Values sess !! "jwt") as [[jwt | n | b] |] eqn:Hjwt; simpl;
    try discriminate.
  destruct (middleware.VerifyIDToken client jwt) as [tok [e |]] eqn:Hverify;
    [discriminate |].
  intros [= <-]. exists sess, jwt. repeat split; assumption.
Qed.

(** X12: when the cookie authentication succeeds, the three cookie
    middleware run the wrapped handler on the untouched response and on
    the request with the verified token under "authToken" in its context:
    the token is the one the identity provider returned for the jwt of the
    session, and the other context values, the headers, host, method and
    path of the request are as they were. *)
Theorem cookie_auth_success
    (store : middleware.CookieStore) (client : middleware.auth_Client)
    (next : http.Handler) (w : http.ResponseWriter) (r : http.Request)
    (tk : option http.auth_Token) :
  middleware.authenticateFromCookie store client r = (tk, None) ->
  exists r' : http.Request,
    middleware.UserAuthenticatedMiddleware store client next w r = next w r'
    /\ middleware.UserAuthenticatedPageMiddleware store client next w r = next w r'
    /\ middleware.InjectAuthTokenMiddleware store client next w r = next w r'
    /\ http.Value r' "authToken" = Some tk
    /\ (forall key : string, key <> "authToken" -> http.Value r' key = http.Value r key)
    /\ (http.Method r', http.Host r', http.URL_Path r', http.Header r')
       = (http.Method r, http.Host r, http.URL_Path r, http.Header r)
    /\ (exists (sess : middleware.Session) (jwt : string),
          middleware.Get store r "____gc" = (sess, None)
          /\ middleware.Values sess !! "jwt" = Some (middleware.any_string jwt)
          /\ middleware.VerifyIDToken client jwt = (tk, None)).
Proof.
  intros Hauth. exists (http.WithValue r "authToken" tk).
  unfold middleware.UserAuthenticatedMiddleware, middleware.UserAuthenticatedPageMiddleware,
    middleware.InjectAuthTokenMiddleware.
  rewrite Hauth.
  do 4 (split; [reflexivity |]). split; [| split; [reflexivity |]].
  - intros key Hkey. unfold http.Value, http.WithValue.
    cbn [http.Context List.find fst].
    apply String.eqb_neq in Hkey. rewrite String.eqb_sym in Hkey. now rewrite Hkey.
  - now apply authenticateFromCookie_success.
Qed.

Lemma cookie_auth_success_witness :
  exists r' : http.Request,
    middleware.UserAuthenticatedPageMiddleware sample.with_cookie sample.accepting
      sample.hello [] sample.over_http = sample.hello [] r'
    /\ http.Value r' "authToken" = Some (Some {| http.UID := "uid-1" |}).
Proof.
  destruct (cookie_auth_success sample.with_cookie sample.accepting sample.hello []
              sample.over_http (Some {| http.UID := "uid-1" |}) eq_refl)
    as (r' & _ & Hpage & _ & Hvalue & _).
  exists r'. split; [exact Hpage | exact Hvalue].
Defined.

(** X13: [InjectAuthTokenMiddleware] turns no request away for want of a
    session or of a cookie: on those two failures it runs the wrapped
    handler on the untouched response and request, which carries no
    "authToken" that the middleware put there; only a failed token
    verification is answered without the handler, by the 303 redirect to
    the autologin page with the path of the request as it is. *)
Theorem InjectAuthTokenMiddleware_anonymous
    (store : middleware.CookieStore) (client : middleware.auth_Client)
    (next : http.Handler) (w : http.ResponseWriter) (r : http.Request) (err : error) :
  snd (middleware.authenticateFromCookie store client r) = Some err ->
  (err = ErrNoAuthSession \/ err = ErrNoAuthCookie ->
   middleware.InjectAuthTokenMiddleware store client next w r = next w r)
  /\ (err = ErrTokenVerificationFailed ->
      middleware.InjectAuthTokenMiddleware store client next w r
      = w ++ [http.Redirect ("/autologin?directto=" +:+ http.URL_Path r) 303]).
Proof.
  intros Herr. unfold middleware.InjectAuthTokenMiddleware.
  destruct (middleware.authenticateFromCookie store client r) as [tk e].
  simpl in Herr. subst e. split.
  - intros [-> | ->]; reflexivity.
  - intros ->. reflexivity.
Qed.

Lemma InjectAuthTokenMiddleware_anonymous_witness :
  middleware.InjectAuthTokenMiddleware sample.no_cookie sample.rejecting sample.hello []
    sample.over_http = [http.Write "hello"].
Proof.
  apply (proj1 (InjectAuthTokenMiddleware_anonymous sample.no_cookie sample.rejecting
                  sample.hello [] sample.over_http ErrNoAuthCookie eq_refl)).
  now right.
Defined.

(** X14: on a failed token verification the page middleware and
    [InjectAuthTokenMiddleware] give the same redirect exactly when the
    path of the request is not empty: for an empty path only the page
    middleware sends the user on to /profile/home. *)
Theorem autologin_redirects_agree
    (store : middleware.CookieStore) (client : middleware.auth_Client)
    (next : http.Handler) (w : http.ResponseWriter) (r : http.Request) :
  snd (middleware.authenticateFromCookie store client r) = Some ErrTokenVerificationFailed ->
  (middleware.UserAuthenticatedPageMiddleware store client next w r
   = middleware.InjectAuthTokenMiddleware store client next w r
   <-> http.URL_Path r <> "")
  /\ (http.URL_Path r = "" ->
      middleware.UserAuthenticatedPageMiddleware store client next w r
      = w ++ [http.Redirect "/autologin?directto=/profile/home" 303]
      /\ middleware.InjectAuthTokenMiddleware store client next w r
         = w ++ [http.Redirect "/autologin?directto=" 303]).
Proof.
  intros Herr.
  unfold middleware.UserAuthenticatedPageMiddleware, middleware.InjectAuthTokenMiddleware.
  destruct (middleware.authenticateFromCookie store client r) as [tk e].
  simpl in Herr. subst e. simpl.
  destruct (String.eqb_spec (http.URL_Path r) "") as [Hempty | Hpath].
  - rewrite Hempty. split; [| intros _; split; reflexivity].
    split; [| intros H; now contradiction H].
    intros Heq. apply app_inv_head in Heq. discriminate Heq.
  - split; [| intros H; contradiction].
    split; [intros _; exact Hpath | reflexivity].
Qed.

Lemma autologin_redirects_agree_witness :
  middleware.UserAuthenticatedPageMiddleware sample.with_cookie sample.rejecting sample.hello
    [] sample.to_root
  = [http.Redirect "/autologin?directto=/profile/home" 303]
  /\ middleware.InjectAuthTokenMiddleware sample.with_cookie sample.rejecting sample.hello
       [] sample.to_root
     = [http.Redirect "/autologin?directto=" 303].
Proof.
  apply (proj2 (autologin_redirects_agree sample.with_cookie sample.rejecting sample.hello
                  [] sample.to_root eq_refl)).
  reflexivity.
Defined.

(** ** The other methods of the repository *)

Lemma Scan_NullString_text_of (c : option string) :
  user.Scan_NullString (user.text_of c)
  = inl {| user.String_ := default "" c; user.NullString_Valid := bool_decide (is_Some c) |}.
Proof. now destruct c. Qed.

Lemma Scan_NullTime_timestamp_of (c : option Z) :
  user.Scan_NullTime (user.timestamp_of c)
  = inl {| user.Time := default 0%Z c; user.NullTime_Valid := bool_decide (is_Some c) |}.
Proof. now destruct c. Qed.

Lemma Scan_NullBool_boolean_of (c : option bool) :
  user.Scan_NullBool (user.boolean_of c)
  = inl {| user.Bool := default false c; user.NullBool_Valid := bool_decide (is_Some c) |}.
Proof. now destruct c. Qed.

(** [GetUser] when the driver lets its lookup run: the first users row
    with the id, field by field, NULL read as the zero value. *)
Lemma GetUser_runs (db : user.DB) (user_id : string) :
  user.next_fault db = None ->
  snd (user.GetUser db user_id)
  = (match List.find (fun row => user.sql_eq (user.u_id row) user_id)
             (user.users (user.tables db)) with
     | Some row =>
         Some {| user.ID := default "" (user.u_id row);
                 user.Email := default "" (user.u_email row);
                 user.EmailVerified := default false (user.u_email_verified row);
                 user.AccessToken := default "" (user.u_access_token row);
                 user.RefreshToken := default "" (user.u_refresh_token row);
                 user.ExpirationTime := 0;
                 user.CreatedAt := default 0%Z (user.u_created_at row);
                 user.Type_ := default "" (user.u_user_type row);
                 user.IsAdmin := false;
                 user.CreatedAtHumanised := "" |}
     | None => None
     end, None).
Proof.
  intros Hf. unfold user.GetUser. rewrite QueryRow_runs by exact Hf.
  cbn [user.run fst snd].
  pose proof (filter_find (fun row => user.sql_eq (user.u_id row) user_id)
                (user.users (user.tables db))) as Hfind.
  destruct (List.find _ (user.users (user.tables db))) as [row |].
  - destruct Hfind as (rest & ->). cbn [map user.bind].
    repeat first [ rewrite Scan_NullString_text_of
                 | rewrite Scan_NullTime_timestamp_of
                 | rewrite Scan_NullBool_boolean_of
                 | progress cbn [user.bind] ].
    reflexivity.
  - rewrite Hfind. reflexivity.
Qed.

Lemma find_append {A : Type} (P : A -> bool) (l l' : list A) :
  List.find P (l ++ l')
  = match List.find P l with
    | Some x => Some x
    | None => List.find P l'
    end.
Proof. induction l as [| a l IH]; simpl; [reflexivity | now destruct (P a)]. Qed.

(** X15: a user stored with [CreateUser] under an id that no row has yet
    is read back by [GetUser] with the same ID, Email, EmailVerified,
    AccessToken, RefreshToken, CreatedAt and Type; ExpirationTime, IsAdmin
    and CreatedAtHumanised come back as zero values. *)
Theorem CreateUser_GetUser_round_trip (db : user.DB) (u : user.User) :
  user.faults db = [] ->
  List.find (fun row => user.sql_eq (user.u_id row) (user.ID u))
    (user.users (user.tables db)) = None ->
  snd (user.CreateUser db u) = None
  /\ snd (user.GetUser (fst (user.CreateUser db u)) (user.ID u))
     = (Some {| user.ID := user.ID u; user.Email := user.Email u;
                user.EmailVerified := user.EmailVerified u;
                user.AccessToken := user.AccessToken u;
                user.RefreshToken := user.RefreshToken u;
                user.ExpirationTime := 0;
                user.CreatedAt := user.CreatedAt u;
                user.Type_ := user.Type_ u;
                user.IsAdmin := false;
                user.CreatedAtHumanised := "" |}, None).
Proof.
  intros Hf Hfresh. unfold user.CreateUser, user.Exec_update, user.next_fault.
  rewrite Hf. split; [reflexivity |].
  rewrite GetUser_runs by reflexivity.
  cbn [fst user.tables user.run_update user.with_users user.users].
  rewrite find_append, Hfresh. cbn [List.find user.u_id user.sql_eq].
  rewrite String.eqb_refl. reflexivity.
Qed.

Lemma CreateUser_GetUser_round_trip_witness :
  snd (user.GetUser (fst (user.CreateUser sample.empty_db sample.a_user)) "u-1")
  = (Some {| user.ID := "u-1"; user.Email := "dev@example.com"; user.EmailVerified := true;
             user.AccessToken := "at-1"; user.RefreshToken := "rt-1";
             user.ExpirationTime := 0; user.CreatedAt := sample.today;
             user.Type_ := "jobseeker"; user.IsAdmin := false;
             user.CreatedAtHumanised := "" |}, None).
Proof.
  exact (proj2 (CreateUser_GetUser_round_trip sample.empty_db sample.a_user
                  eq_refl eq_refl)).
Defined.

Lemma find_map_same {A : Type} (P : A -> bool) (f : A -> A) (l : list A) :
  (forall x : A, P (f x) = P x) ->
  List.find P (map f l) = f <$> List.find P l.
Proof.
  intros Hf. induction l as [| a l IH]; simpl; [reflexivity |].
  rewrite Hf. now destruct (P a).
Qed.

Lemma with_users_same (tb : user.Tables) : user.with_users tb (user.users tb) = tb.
Proof. now destruct tb. Qed.

(** X16: [UpdateAccessToken] returns a nil error whether or not a user
    has the id.  Afterwards [GetUser] returns for that id the user it
    returned before with the new access token and nothing else changed,
    for every other id what it returned before, and the number of users
    is the same; when no user has the id, no table changes. *)
Theorem UpdateAccessToken_GetUser (db : user.DB) (userId accessToken : string) :
  user.faults db = [] ->
  let db' := fst (user.UpdateAccessToken db userId accessToken) in
  snd (user.UpdateAccessToken db userId accessToken) = None
  /\ length (user.users (user.tables db')) = length (user.users (user.tables db))
  /\ (forall id : string,
        id <> userId -> snd (user.GetUser db' id) = snd (user.GetUser db id))
  /\ match fst (snd (user.GetUser db userId)) with
     | Some u =>
         snd (user.GetUser db' userId)
         = (Some {| user.ID := user.ID u; user.Email := user.Email u;
                    user.EmailVerified := user.EmailVerified u;
                    user.AccessToken := accessToken;
                    user.RefreshToken := user.RefreshToken u;
                    user.ExpirationTime := user.ExpirationTime u;
                    user.CreatedAt := user.CreatedAt u;
                    user.Type_ := user.Type_ u;
                    user.IsAdmin := user.IsAdmin u;
                    user.CreatedAtHumanised := user.CreatedAtHumanised u |}, None)
     | None =>
         user.tables db' = user.tables db /\ snd (user.GetUser db' userId) = (None, None)
     end.
Proof.
  intros Hf db'. subst db'.
  unfold user.UpdateAccessToken, user.Exec_update, user.next_fault. rewrite Hf.
  cbn [fst snd]. split; [reflexivity |].
  split; [cbn [user.tables user.run_update user.with_users user.users];
          apply length_map |].
  set (f := fun u : user.users_row =>
              if user.sql_eq (user.u_id u) userId
              then {| user.u_id := user.u_id u; user.u_email := user.u_email u;
                      user.u_created_at := user.u_created_at u;
                      user.u_user_type := user.u_user_type u;
                      user.u_email_verified := user.u_email_verified u;
                      user.u_access_token := Some accessToken;
                      user.u_refresh_token := user.u_refresh_token u;
                      user.u_expiration_time := user.u_expiration_time u;
                      user.u_token := user.u_token u |}
              else u).
  assert (Hid : forall (id : string) (x : user.users_row),
            user.sql_eq (user.u_id (f x)) id = user.sql_eq (user.u_id x) id).
  { intros id x. unfold f. now destruct (user.sql_eq (user.u_id x) userId). }
  split.
  - intros id Hne.
    rewrite !GetUser_runs by (unfold user.next_fault; cbn [user.faults]; now rewrite ?Hf).
    cbn [user.tables user.run_update user.with_users user.users]. fold f.
    rewrite (find_map_same _ f) by apply Hid.
    destruct (List.find _ (user.users (user.tables db))) as [row |] eqn:Hfind;
      [| reflexivity].
    apply find_some in Hfind as [_ Hrow]. cbn [fmap option_fmap option_map].
    assert (Hother : user.sql_eq (user.u_id row) userId = false).
    { unfold user.sql_eq in Hrow |- *.
      destruct (user.u_id row) as [id' |]; [| discriminate Hrow].
      apply String.eqb_eq in Hrow. subst id'. now apply String.eqb_neq. }
    unfold f. now rewrite Hother.
  - rewrite !GetUser_runs by (unfold user.next_fault; cbn [user.faults]; now rewrite ?Hf).
    cbn [user.tables user.run_update user.with_users user.users fst]. fold f.
    rewrite (find_map_same _ f) by apply Hid.
    destruct (List.find _ (user.users (user.tables db))) as [row |] eqn:Hfind.
    + apply find_some in Hfind as [_ Hrow]. cbn [fmap option_fmap option_map].
      unfold f. rewrite Hrow. reflexivity.
    + split; [| reflexivity].
      transitivity (user.with_users (user.tables db) (user.users (user.tables db)));
        [| apply with_users_same].
      f_equal.
      transitivity (map (fun x => x) (user.users (user.tables db))); [| apply map_id].
      apply map_ext_in. intros x Hx. unfold f.
      now rewrite (find_none _ _ Hfind x Hx).
Qed.

Lemma UpdateAccessToken_GetUser_witness :
  snd (user.GetUser
         (fst (user.UpdateAccessToken (fst (user.CreateUser sample.empty_db sample.a_user))
                 "u-1" "at-2")) "u-1")
  = (Some {| user.ID := "u-1"; user.Email := "dev@example.com"; user.EmailVerified := true;
             user.AccessToken := "at-2"; user.RefreshToken := "rt-1";
             user.ExpirationTime := 0; user.CreatedAt := sample.today;
             user.Type_ := "jobseeker"; user.IsAdmin := false;
             user.CreatedAtHumanised := "" |}, None).
Proof.
  exact (proj2 (proj2 (proj2
           (UpdateAccessToken_GetUser (fst (user.CreateUser sample.empty_db sample.a_user))
              "u-1" "at-2" eq_refl)))).
Defined.

(** X17: [UpdateAccessToken] and [UpdateRefreshToken] do not disturb each
    other: in either order they leave the same tables, and the refresh
    token is changed on the rows of its id only, whatever was done to the
    access tokens. *)
Theorem token_updates_commute
    (db : user.DB) (id1 accessToken id2 refreshToken : string) :
  user.faults db = [] ->
  user.tables
    (fst (user.UpdateRefreshToken (fst (user.UpdateAccessToken db id1 accessToken))
            id2 refreshToken))
  = user.tables
      (fst (user.UpdateAccessToken (fst (user.UpdateRefreshToken db id2 refreshToken))
              id1 accessToken))
  /\ map user.u_refresh_token
       (user.users
          (user.tables
             (fst (user.UpdateRefreshToken (fst (user.UpdateAccessToken db id1 accessToken))
                     id2 refreshToken))))
     = map (fun row => if user.sql_eq (user.u_id row) id2 then Some refreshToken
                       else user.u_refresh_token row)
         (user.users (user.tables db)).
Proof.
  intros Hf.
  unfold user.UpdateAccessToken, user.UpdateRefreshToken, user.Exec_update, user.next_fault.
  rewrite Hf.
  cbn [fst user.tables user.faults tail user.run_update user.with_users user.users
       user.user_sign_on_token user.recruiter_profile user.developer_profile].
  rewrite !map_map. split.
  - f_equal. apply map_ext. intros row.
    destruct (user.sql_eq (user.u_id row) id1) eqn:H1,
      (user.sql_eq (user.u_id row) id2) eqn:H2; cbn [user.u_id]; rewrite ?H1, ?H2;
      reflexivity.
  - apply map_ext. intros row.
    destruct (user.sql_eq (user.u_id row) id1) eqn:H1,
      (user.sql_eq (user.u_id row) id2) eqn:H2; cbn [user.u_id]; rewrite ?H1, ?H2;
      reflexivity.
Qed.

Lemma token_updates_commute_witness :
  map user.u_refresh_token
    (user.users
       (user.tables
          (fst (user.UpdateRefreshToken
                  (fst (user.UpdateAccessToken sample.pending_db "u-9" "at-9"))
                  "u-9" "rt-9"))))
  = [None].
Proof.
  exact (proj2 (token_updates_commute sample.pending_db "u-9" "at-9" "u-9" "rt-9" eq_refl)).
Defined.

(** [GetUserTypeByEmail] when users has no row for the email and the
    driver fails nothing: the profile tables decide. *)
Lemma GetUserTypeByEmail_without_user (db : user.DB) (email : string) :
  user.faults db = [] ->
  List.find (fun u => user.sql_eq (user.u_email u) email) (user.users (user.tables db))
  = None ->
  snd (user.GetUserTypeByEmail db email)
  = match List.find (fun p => user.sql_eq (user.p_email p) email)
            (user.recruiter_profile (user.tables db)) with
    | Some _ => ("recruiter", None)
    | None =>
        match List.find (fun p => user.sql_eq (user.p_email p) email)
                (user.developer_profile (user.tables db)) with
        | Some _ => ("developer", None)
        | None => ("", Some sql_ErrNoRows)
        end
    end.
Proof.
  intros Hf Hnone. unfold user.GetUserTypeByEmail.
  rewrite QueryRow_runs by (unfold user.next_fault; now rewrite Hf).
  rewrite Hf. simpl.
  pose proof (filter_find (fun u => user.sql_eq (user.u_email u) email)
                (user.users (user.tables db))) as Hu.
  rewrite Hnone in Hu. rewrite Hu. simpl.
  pose proof (filter_find (fun p => user.sql_eq (user.p_email p) email)
                (user.recruiter_profile (user.tables db))) as Hr.
  destruct (List.find _ (user.recruiter_profile (user.tables db))) as [p |].
  { destruct Hr as (rest & ->). reflexivity. }
  rewrite Hr. simpl.
  pose proof (filter_find (fun p => user.sql_eq (user.p_email p) email)
                (user.developer_profile (user.tables db))) as Hd.
  destruct (List.find _ (user.developer_profile (user.tables db))) as [p |].
  - destruct Hd as (rest & ->). reflexivity.
  - rewrite Hd. reflexivity.
Qed.

Lemma find_filter_negb {A : Type} (P : A -> bool) (l : list A) :
  List.find P (List.filter (fun x => negb (P x)) l) = None.
Proof.
  induction l as [| a l IH]; simpl; [reflexivity |].
  destruct (P a) eqn:Ha; simpl; [exact IH | now rewrite Ha].
Qed.

(** X18: [DeleteUserByEmail] removes exactly the users rows with the
    email and touches no other table.  [GetUserTypeByEmail] for that email
    then answers from the profile tables alone: a deleted user who still
    has a row in recruiter_profile or developer_profile is still reported
    as recruiter or developer, and otherwise the lookup ends in
    [sql.ErrNoRows]. *)
Theorem DeleteUserByEmail_then_type (db : user.DB) (email : string) :
  user.faults db = [] ->
  let db' := fst (user.DeleteUserByEmail db email) in
  snd (user.DeleteUserByEmail db email) = None
  /\ (forall row : user.users_row,
        In row (user.users (user.tables db'))
        <-> In row (user.users (user.tables db)) /\ user.u_email row <> Some email)
  /\ (user.user_sign_on_token (user.tables db'), user.recruiter_profile (user.tables db'),
      user.developer_profile (user.tables db'))
     = (user.user_sign_on_token (user.tables db), user.recruiter_profile (user.tables db),
        user.developer_profile (user.tables db))
  /\ snd (user.GetUserTypeByEmail db' email)
     = match List.find (fun p => user.sql_eq (user.p_email p) email)
               (user.recruiter_profile (user.tables db)) with
       | Some _ => ("recruiter", None)
       | None =>
           match List.find (fun p => user.sql_eq (user.p_email p) email)
                   (user.developer_profile (user.tables db)) with
           | Some _ => ("developer", None)
           | None => ("", Some sql_ErrNoRows)
           end
       end.
Proof.
  intros Hf db'. subst db'.
  unfold user.DeleteUserByEmail, user.Exec_update, user.next_fault. rewrite Hf.
  cbn [fst snd]. split; [reflexivity |]. split; [| split; [reflexivity |]].
  - intros row. cbn [user.tables user.run_update user.with_users user.users].
    rewrite filter_In. unfold user.sql_eq.
    destruct (user.u_email row) as [e |].
    + destruct (String.eqb_spec e email) as [-> | Hne]; simpl.
      * split; [intros [_ [=]] | intros [_ H]; now contradiction H].
      * split; intros [Hin _]; (split; [exact Hin |]); [congruence | reflexivity].
    + split; intros [Hin _]; (split; [exact Hin |]); [discriminate | reflexivity].
  - rewrite GetUserTypeByEmail_without_user; [reflexivity | reflexivity |].
    cbn [user.tables user.run_update user.with_users user.users].
    apply (find_filter_negb (fun u => user.sql_eq (user.u_email u) email)).
Qed.

Lemma DeleteUserByEmail_then_type_witness :
  snd (user.GetUserTypeByEmail
         (fst (user.DeleteUserByEmail sample.recruiter_db "hr@example.com"))
         "hr@example.com")
  = ("recruiter", None).
Proof.
  exact (proj2 (proj2 (proj2
           (DeleteUserByEmail_then_type sample.recruiter_db "hr@example.com" eq_refl)))).
Defined.

(** X19: a sign-on token saved with [SaveTokenSignOn] is stored with the
    time of the database as its creation time; a later run of
    [DeleteExpiredUserSignOnTokens] keeps it exactly when at most seven
    days have passed since then. *)
Theorem saved_token_purge_window
    (db later : user.DB) (email token userType : string) :
  user.next_fault db = None ->
  user.next_fault later = None ->
  user.tables later = user.tables (fst (user.SaveTokenSignOn db email token userType)) ->
  let saved :=
    {| user.t_token := Some token; user.t_email := Some email;
       user.t_user_type := Some userType; user.t_created_at := Some (user.NOW db) |} in
  snd (user.SaveTokenSignOn db email token userType) = None
  /\ user.user_sign_on_token (user.tables later)
     = user.user_sign_on_token (user.tables db) ++ [saved]
  /\ (In saved
        (user.user_sign_on_token
           (user.tables (fst (user.DeleteExpiredUserSignOnTokens later))))
      <-> (user.NOW later - user.NOW db <= 7 * 24 * 60 * 60 * 1000000)%Z).
Proof.
  intros Hf Hlater Htables saved.
  unfold user.SaveTokenSignOn, user.Exec, user.send in Htables |- *.
  rewrite Hf in Htables |- *. cbn [fst snd user.run user.tables] in Htables |- *.
  split; [reflexivity |].
  assert (Htokens : user.user_sign_on_token (user.tables later)
                    = user.user_sign_on_token (user.tables db) ++ [saved])
    by now rewrite Htables.
  split; [exact Htokens |].
  unfold user.DeleteExpiredUserSignOnTokens, user.Exec, user.send. rewrite Hlater.
  cbn [fst user.run user.tables user.user_sign_on_token].
  rewrite filter_In, Htokens, in_app_iff.
  unfold user.expired, user.seven_days. cbn [saved user.t_created_at].
  rewrite negb_true_iff, Z.ltb_ge. split.
  - intros [_ Hkept]. lia.
  - intros Hwindow. split; [right; now left | lia].
Qed.

Lemma saved_token_purge_window_witness :
  In (sample.sign_on "tok-1" sample.today)
    (user.user_sign_on_token
       (user.tables (fst (user.DeleteExpiredUserSignOnTokens sample.saved_db)))).
Proof.
  apply (proj2 (proj2 (saved_token_purge_window sample.empty_db sample.saved_db
                         "dev@example.com" "tok-1" "jobseeker" eq_refl eq_refl eq_refl))).
  discriminate.
Defined.

Lemma filter_twice {A : Type} (P : A -> bool) (l : list A) :
  List.filter P (List.filter P l) = List.filter P l.
Proof.
  induction l as [| a l IH]; simpl; [reflexivity |].
  destruct (P a) eqn:Ha; simpl; [rewrite Ha; now f_equal | exact IH].
Qed.

(** X20: purging is idempotent: a second [DeleteExpiredUserSignOnTokens]
    at the same time of the database removes nothing more. *)
Theorem DeleteExpiredUserSignOnTokens_twice (db : user.DB) :
  user.faults db = [] ->
  user.tables
    (fst (user.DeleteExpiredUserSignOnTokens (fst (user.DeleteExpiredUserSignOnTokens db))))
  = user.tables (fst (user.DeleteExpiredUserSignOnTokens db))
  /\ snd (user.DeleteExpiredUserSignOnTokens (fst (user.DeleteExpiredUserSignOnTokens db)))
     = None.
Proof.
  intros Hf.
  unfold user.DeleteExpiredUserSignOnTokens, user.Exec, user.send, user.next_fault.
  rewrite Hf.
  cbn [fst snd user.run user.tables user.faults user.NOW tail user.users
       user.user_sign_on_token user.recruiter_profile user.developer_profile].
  now rewrite filter_twice.
Qed.

Lemma DeleteExpiredUserSignOnTokens_twice_witness :
  user.user_sign_on_token
    (user.tables
       (fst (user.DeleteExpiredUserSignOnTokens
               (fst (user.DeleteExpiredUserSignOnTokens sample.tokens_db)))))
  = [sample.sign_on "edge" (sample.today - 7 * sample.day);
     sample.sign_on "new" (sample.today - sample.day)].
Proof.
  rewrite (proj1 (DeleteExpiredUserSignOnTokens_twice sample.tokens_db eq_refl)).
  reflexivity.
Defined.

(** X21: [GetOrCreateUserFromToken] changes the tables in one case only:
    when it returns a created user (existed false, nil error) it has
    appended one users row with the ID, Email, CreatedAt and Type of that
    user and NULL elsewhere; in every other case, also when its INSERT
    fails, users is as before.  The other three tables are never
    changed. *)
Theorem GetOrCreateUserFromToken_frame (env : user.Env) (db : user.DB) (token : string) :
  let db' := fst (user.GetOrCreateUserFromToken env db token) in
  let '(u, existed, err) := snd (user.GetOrCreateUserFromToken env db token) in
  (user.user_sign_on_token (user.tables db'), user.recruiter_profile (user.tables db'),
   user.developer_profile (user.tables db'))
  = (user.user_sign_on_token (user.tables db), user.recruiter_profile (user.tables db),
     user.developer_profile (user.tables db))
  /\ user.users (user.tables db')
     = if bool_decide (err = None) && negb existed then
         user.users (user.tables db)
         ++ [{| user.u_id := Some (user.ID u); user.u_email := Some (user.Email u);
                user.u_created_at := Some (user.CreatedAt u);
                user.u_user_type := Some (user.Type_ u);
                user.u_email_verified := None; user.u_access_token := None;
                user.u_refresh_token := None; user.u_expiration_time := None;
                user.u_token := None |}]
       else user.users (user.tables db).
Proof.
  unfold user.GetOrCreateUserFromToken, user.QueryRow, user.Exec, user.send, user.next_fault.
  destruct (user.faults db) as [| [e |] fs]; cbn [fst snd user.run tail user.faults];
    try (split; reflexivity).
  - destruct (List.filter _ (user.users (user.tables db))) as [| row rows];
      cbn [map user.bind]; [split; reflexivity |].
    destruct (user.u_id row), (user.u_email row), (user.u_created_at row),
      (user.u_user_type row), (user.u_email_verified row), (user.u_access_token row),
      (user.u_expiration_time row); cbn; try (split; reflexivity);
      destruct (user.ksuid_NewRandom env); cbn; split; reflexivity.
  - destruct (List.filter _ (user.users (user.tables db))) as [| row rows];
      cbn [map user.bind]; [split; reflexivity |].
    destruct (user.u_id row), (user.u_email row), (user.u_created_at row),
      (user.u_user_type row), (user.u_email_verified row), (user.u_access_token row),
      (user.u_expiration_time row); cbn; try (split; reflexivity);
      destruct (user.ksuid_NewRandom env); cbn; try (split; reflexivity);
      destruct fs as [| [e' |] fs']; cbn; split; reflexivity.
Qed.

(** X22: the user that [GetUser] returns has the id asked for and comes
    with a nil error; and when the driver lets the lookup run, [GetUser]
    returns a nil user with a nil error exactly when no users row has the
    id. *)
Theorem GetUser_by_id (db : user.DB) (user_id : string) :
  (forall (u : user.User) (err : option error),
     snd (user.GetUser db user_id) = (Some u, err) ->
     user.ID u = user_id /\ err = None
     /\ exists row : user.users_row,
          In row (user.users (user.tables db))
          /\ user.u_id row = Some user_id
          /\ user.Email u = default "" (user.u_email row))
  /\ (user.next_fault db = None ->
      (snd (user.GetUser db user_id) = (None, None)
       <-> forall row : user.users_row,
             In row (user.users (user.tables db)) -> user.u_id row <> Some user_id)).
Proof.
  assert (Hmatch : forall row : user.users_row,
            user.sql_eq (user.u_id row) user_id = true <-> user.u_id row = Some user_id).
  { intros row. unfold user.sql_eq. destruct (user.u_id row) as [id |].
    - rewrite String.eqb_eq. split; [now intros -> | now intros [= ->]].
    - split; discriminate. }
  destruct (user.next_fault db) as [e |] eqn:Hf.
  - split; [| discriminate].
    intros u err. unfold user.GetUser. rewrite (QueryRow_fails _ _ e Hf).
    cbn [user.bind]. case_bool_decide; discriminate.
  - rewrite GetUser_runs by exact Hf.
    destruct (List.find _ (user.users (user.tables db))) as [row |] eqn:Hfind.
    + apply find_some in Hfind as [Hin Hrow]. apply Hmatch in Hrow. split.
      * intros u err [= <- <-]. cbn [user.ID user.Email]. rewrite Hrow.
        split; [reflexivity |]. split; [reflexivity |]. now exists row.
      * intros _. split; [discriminate |]. intros Hnone. now destruct (Hnone row Hin).
    + split; [discriminate |]. intros _. split; [| reflexivity].
      intros _ row Hin Hrow. apply Hmatch in Hrow.
      now rewrite (find_none _ _ Hfind row Hin) in Hrow.
Qed.

Lemma GetUser_by_id_witness :
  snd (user.GetUser sample.pending_db "u-1") = (None, None).
Proof.
  apply (proj2 (GetUser_by_id sample.pending_db "u-1") eq_refl).
  intros row [<- | []]. discriminate.
Defined.

Lemma QueryRow_select_tables (s : user.statement) (db : user.DB) :
  fst (user.run s (user.tables db) (user.NOW db)) = user.tables db ->
  user.tables (fst (user.QueryRow s db)) = user.tables db.
Proof.
  intros Hrun. unfold user.QueryRow, user.send.
  destruct (user.next_fault db); [reflexivity |].
  destruct (user.run s (user.tables db) (user.NOW db)) as [tb rows]. exact Hrun.
Qed.

(** X23: the lookups never change a row: [GetUser] and
    [GetUserTypeByEmail] leave all four tables as they were, whatever the
    tables hold and whichever of their calls the driver fails. *)
Theorem lookups_change_nothing (db : user.DB) (arg : string) :
  user.tables (fst (user.GetUser db arg)) = user.tables db
  /\ user.tables (fst (user.GetUserTypeByEmail db arg)) = user.tables db.
Proof.
  split.
  - unfold user.GetUser.
    pose proof (QueryRow_select_tables (user.select_user_by_id arg) db eq_refl) as H1.
    destruct (user.QueryRow _ db) as [db1 row]. cbn [fst] in H1.
    destruct (user.bind row _) as [[[[[[[[? ?] ?] ?] ?] ?] ?] ?] | err]; [exact H1 |].
    case_bool_decide; exact H1.
  - unfold user.GetUserTypeByEmail.
    pose proof (QueryRow_select_tables (user.select_user_type_by_email arg) db eq_refl)
      as H1.
    destruct (user.QueryRow _ db) as [db1 row1]. cbn [fst] in H1.
    destruct (user.bind row1 _) as [t1 | err1]; [exact H1 |].
    case_bool_decide; [| exact H1].
    pose proof (QueryRow_select_tables (user.select_recruiter_by_email arg) db1 eq_refl)
      as H2.
    destruct (user.QueryRow _ db1) as [db2 row2]. cbn [fst] in H2.
    destruct (user.bind row2 _) as [t2 | err2]; [cbn [fst]; congruence |].
    pose proof (QueryRow_select_tables (user.select_developer_by_email arg) db2 eq_refl)
      as H3.
    destruct (user.QueryRow _ db2) as [db3 row3]. cbn [fst] in H3.
    destruct (user.bind row3 _) as [t3 | err3]; cbn [fst]; congruence.
Qed.

(** X24: a type that [GetUserTypeByEmail] returns for an email without a
    users row is "recruiter" or "developer", and so none of the three
    user types the package declares (UserTypeDeveloper, UserTypeAdmin,
    UserTypeRecruiter). *)
Theorem fallback_type_is_no_UserType (db : user.DB) (email userType : string) :
  user.faults db = [] ->
  List.find (fun u => user.sql_eq (user.u_email u) email) (user.users (user.tables db))
  = None ->
  snd (user.GetUserTypeByEmail db email) = (userType, None) ->
  (userType = "recruiter" \/ userType = "developer")
  /\ userType <> user.UserTypeDeveloper
  /\ userType <> user.UserTypeAdmin
  /\ userType <> user.UserTypeRecruiter.
Proof.
  intros Hf Hnone. rewrite (GetUserTypeByEmail_without_user db email Hf Hnone).
  destruct (List.find _ (user.recruiter_profile (user.tables db))).
  - intros [= <-]. split; [now left | repeat split; discriminate].
  - destruct (List.find _ (user.developer_profile (user.tables db))); [| discriminate].
    intros [= <-]. split; [now right | repeat split; discriminate].
Qed.

Lemma fallback_type_is_no_UserType_witness :
  "recruiter" <> user.UserTypeRecruiter.
Proof.
  exact (proj2 (proj2 (proj2
           (fallback_type_is_no_UserType sample.recruiter_db "hr@example.com" "recruiter"
              eq_refl eq_refl eq_refl)))).
Defined.

Lemma filter_head {A : Type} (P : A -> bool) (l rest : list A) (x : A) :
  List.filter P l = x :: rest -> In x l /\ P x = true.
Proof.
  intros Hfilter. apply filter_In. rewrite Hfilter. now left.
Qed.

(** X25: when [GetOrCreateUserFromToken] reports an existing user
    (existed true), that user is read from a users row whose token column
    is the token given and whose email and access token are not NULL: its
    Email is that email and its ID and Type are those of the row; no table
    has changed. *)
Theorem GetOrCreateUserFromToken_existing
    (env : user.Env) (db : user.DB) (token : string) (u : user.User) (err : option error) :
  snd (user.GetOrCreateUserFromToken env db token) = (u, true, err) ->
  err = None
  /\ user.tables (fst (user.GetOrCreateUserFromToken env db token)) = user.tables db
  /\ exists row : user.users_row,
       In row (user.users (user.tables db))
       /\ user.u_token row = Some token
       /\ user.u_email row = Some (user.Email u)
       /\ is_Some (user.u_access_token row)
       /\ user.ID u = default "" (user.u_id row)
       /\ user.Type_ u = default "" (user.u_user_type row)
       /\ user.CreatedAt u = default 0%Z (user.u_created_at row).
Proof.
  assert (Htoken : forall row : user.users_row,
            user.sql_eq (user.u_token row) token = true -> user.u_token row = Some token).
  { intros row. unfold user.sql_eq. destruct (user.u_token row) as [tk |]; [| discriminate].
    now intros ->%String.eqb_eq. }
  unfold user.GetOrCreateUserFromToken, user.QueryRow, user.Exec, user.send, user.next_fault.
  destruct (user.faults db) as [| [e |] fs]; cbn [fst snd user.run tail user.faults];
    try discriminate.
  - destruct (List.filter _ (user.users (user.tables db))) as [| row rows] eqn:Hfilter;
      cbn [map user.bind]; [discriminate |].
    apply filter_head in Hfilter as [Hin Hrow]. apply Htoken in Hrow.
    destruct (user.u_id row) eqn:?, (user.u_email row) eqn:?, (user.u_created_at row) eqn:?,
      (user.u_user_type row) eqn:?, (user.u_email_verified row),
      (user.u_access_token row) eqn:?, (user.u_expiration_time row); cbn;
      try discriminate;
      try (destruct (user.ksuid_NewRandom env); cbn; discriminate);
      intros [= <- <-]; (split; [reflexivity |]); (split; [reflexivity |]);
      exists row; cbn; repeat split; try assumption;
      repeat match goal with
             | H : _ row = _ |- _ => rewrite H; clear H
             end;
      first [reflexivity | now eexists].
  - destruct (List.filter _ (user.users (user.tables db))) as [| row rows] eqn:Hfilter;
      cbn [map user.bind]; [discriminate |].
    apply filter_head in Hfilter as [Hin Hrow]. apply Htoken in Hrow.
    destruct (user.u_id row) eqn:?, (user.u_email row) eqn:?, (user.u_created_at row) eqn:?,
      (user.u_user_type row) eqn:?, (user.u_email_verified row),
      (user.u_access_token row) eqn:?, (user.u_expiration_time row); cbn;
      try discriminate;
      try (destruct (user.ksuid_NewRandom env); cbn; try discriminate;
           destruct fs as [| [e' |] fs']; cbn; discriminate);
      intros [= <- <-]; (split; [reflexivity |]); (split; [reflexivity |]);
      exists row; cbn; repeat split; try assumption;
      repeat match goal with
             | H : _ row = _ |- _ => rewrite H; clear H
             end;
      first [reflexivity | now eexists].
Qed.

Lemma GetOrCreateUserFromToken_existing_witness :
  user.tables (fst (user.GetOrCreateUserFromToken sample.env0 sample.member_db "tok-3"))
  = user.tables sample.member_db
  /\ exists row : user.users_row,
       In row (user.users (user.tables sample.member_db))
       /\ user.u_token row = Some "tok-3"
       /\ user.u_email row = Some "member@example.com".
Proof.
  destruct (GetOrCreateUserFromToken_existing sample.env0 sample.member_db "tok-3"
              {| user.ID := "u-3"; user.Email := "member@example.com";
                 user.EmailVerified := false; user.AccessToken := "";
                 user.RefreshToken := ""; user.ExpirationTime := 0;
                 user.CreatedAt := (sample.today - 30 * sample.day)%Z;
                 user.Type_ := "workerseeker"; user.IsAdmin := false;
                 user.CreatedAtHumanised := "now" |} None eq_refl)
    as (_ & Htables & row & Hin & Htoken & Hemail & _).
  split; [exact Htables |]. exists row. now repeat split.
Defined.
